(** * Speech intent/slot training entry point: encoder initialisation and test gate

    Shallow embedding of [examples/slu/speech_intent_slot/speech_intent_slot_train.py].

    The script is one function, [main].  It builds a trainer and a model,
    seeds the encoder from a pretrained source chosen by a short decision
    tree on [cfg.pretrained_encoder.name], freezes or unfreezes the encoder,
    runs [trainer.fit] and finally runs [trainer.test] behind a guard.

    The embedding keeps the statement order of [main].  The mutable objects
    ([model], the local variable [pretraind_model]) live in an explicit state,
    every call into a collaborator (file system, [torch.load], the model zoo,
    the trainer) is recorded in a trace, and a Python exception is an
    outcome of the computation. *)

From stdpp Require Import gmap strings list fin_maps.

(** ** Python string methods used by the script *)

(** [s.startswith(prefix)] *)
Fixpoint startswith (s prefix : string) {struct prefix} : bool :=
  match prefix with
  | EmptyString => true
  | String a prefix' =>
      match s with
      | EmptyString => false
      | String b s' => Ascii.eqb a b && startswith s' prefix'
      end
  end.

(** [s.endswith(suffix)]: the last [len(suffix)] characters of [s] are [suffix]. *)
Definition endswith (s suffix : string) : bool :=
  startswith (String.rev s) (String.rev suffix).

(** [s[len(prefix):]] when [s.startswith(prefix)], [None] otherwise.  This is
    how a sub-module's [state_dict()] names its entries: the entries of the
    module [encoder] are the entries of the whole model whose name starts with
    ["encoder."], with that prefix removed. *)
Fixpoint strip_prefix (prefix s : string) : option string :=
  match prefix with
  | EmptyString => Some s
  | String a prefix' =>
      match s with
      | EmptyString => None
      | String b s' => if Ascii.eqb a b then strip_prefix prefix' s' else None
      end
  end.

Definition encoder_prefix : string := "encoder.".

(** A parameter of the model belongs to the encoder sub-module when its
    qualified name starts with ["encoder."]. *)
Definition is_encoder_param (k : string) : bool := startswith k encoder_prefix.

(** ** Data model *)

Section Tensors.

(** The script never looks inside a tensor. *)
Context {Tensor : Type}.

(** A [torch.nn.Parameter]: its tensor and its [requires_grad] flag. *)
Record Param := mkParam { data : Tensor; requires_grad : bool }.

(** A model ([SLUIntentSlotBPEModel], or a pretrained source model) as the
    mapping of [named_parameters()]: qualified name to parameter. *)
Record Model := mkModel { named_parameters : gmap string Param }.

(** What [torch.load] can find under a key of a checkpoint dictionary: a
    weights mapping (parameter name to tensor), or some other object (an
    epoch counter, optimizer states, ...). *)
Inductive PyObj :=
  | PyStateDict (sd : gmap string Tensor)
  | PyOther.

(** The two model classes [main] chooses between for a symbolic name. *)
Inductive ModelCls := SpeechEncDecSelfSupervisedModel | ASRModel.

(** What a key of an OmegaConf section can hold when the script reads it as
    an attribute. *)
Inductive Lookup (A : Type) :=
  | NoKey          (* the key is not in the section: reading it raises AttributeError *)
  | Mandatory      (* the key holds '???': reading it raises MissingMandatoryValue *)
  | Value (v : A). (* reading it returns [v] *)
Global Arguments NoKey {A}.
Global Arguments Mandatory {A}.
Global Arguments Value {A} v.

(** The section [cfg.model.test_ds]; [None] under [manifest_filepath] is
    Python's [None] (a [null] in the YAML file). *)
Record TestDsCfg := mkTestDs { manifest_filepath : Lookup (option string) }.

(** The fields of the Hydra configuration that [main] reads. [None] is
    Python's [None].  Under [test_ds], [Some] is a section and [None] stands
    for [None] and for any other value that is not a section: reading
    [manifest_filepath] from it raises [AttributeError] just the same. *)
Record Cfg := mkCfg {
  pretrained_encoder_name : option string;
  pretrained_encoder_freeze : bool;
  model_test_ds : Lookup (option TestDsCfg)
}.

Inductive FsNode := RegularFile | Directory.

(** The collaborators of [main].  A collaborator that can fail returns
    [None] when it raises. *)
Record Env := mkEnv {
  (** the file system: path to kind of node *)
  fs : gmap string FsNode;
  (** [torch.load(path, map_location='cpu')] *)
  torch_load : string -> option (gmap string PyObj);
  (** [ASRModel.restore_from(restore_path=path, ...)] *)
  ASRModel_restore_from : string -> option Model;
  (** [model_cls.from_pretrained(model_name=name, ...)] *)
  from_pretrained : ModelCls -> string -> option Model;
  (** [trainer.fit(model)] trains the model object in place: the model it
      leaves, and [true] when it returns, [false] when it raises *)
  trainer_fit : Model -> Model * bool;
  (** [model.prepare_test(trainer)] *)
  model_prepare_test : Model -> bool;
  (** [trainer.test(model)]: [true] when it returns, [false] when it raises *)
  trainer_test : Model -> bool;
  (** [OmegaConf.to_yaml(cfg)] *)
  OmegaConf_to_yaml : Cfg -> string
}.

(** ** Effects *)

Inductive LoadTarget := WholeModel | EncoderOnly.

Inductive Event :=
  | EvLog (msg : string)                            (* logging.info *)
  | EvIsFile (path : string)                        (* Path(..).is_file() *)
  | EvTorchLoad (path : string)                     (* torch.load *)
  | EvRestoreFrom (path : string)                   (* ASRModel.restore_from *)
  | EvFromPretrained (cls : ModelCls) (name : string) (* model_cls.from_pretrained *)
  | EvLoadStateDict (target : LoadTarget)           (* load_state_dict(.., strict=False) *)
  | EvFit                                           (* trainer.fit *)
  | EvPrepareTest                                   (* model.prepare_test *)
  | EvTest.                                         (* trainer.test *)

Inductive Exn :=
  | ValueError (msg : string)
  | KeyError (key : string)
  | TypeError
  | UnboundLocalError (var : string)
  | AttributeError (attr : string)
  | MissingMandatoryValue (key : string)
  | CorruptCheckpoint        (* torch.load or restore_from raised *)
  | RemoteLookupFailure      (* from_pretrained raised *)
  | TrainingFailure.         (* trainer.fit or trainer.test raised *)

(** The local variable [pretraind_model]: unbound, or bound to [None] or to
    a model. *)
Inductive Local :=
  | Unbound
  | BoundNone
  | BoundModel (m : Model).

Record State := mkState {
  model : Model;
  pretraind_model : Local;
  trace : list Event
}.

Inductive Outcome (A : Type) :=
  | Ok (a : A)
  | Raise (e : Exn).
Global Arguments Ok {A} a.
Global Arguments Raise {A} e.

Definition M (A : Type) : Type := State -> Outcome A * State.

Definition ret {A} (a : A) : M A := fun s => (Ok a, s).

Definition bind {A B} (c : M A) (k : A -> M B) : M B :=
  fun s =>
    match c s with
    | (Ok a, s') => k a s'
    | (Raise e, s') => (Raise e, s')
    end.

Definition raise {A} (e : Exn) : M A := fun s => (Raise e, s).

Definition emit (e : Event) : M unit :=
  fun s => (Ok tt, mkState (model s) (pretraind_model s) (trace s ++ [e])).

Definition get_model : M Model := fun s => (Ok (model s), s).

Definition put_model (m : Model) : M unit :=
  fun s => (Ok tt, mkState m (pretraind_model s) (trace s)).

Definition assign_pretraind_model (v : Local) : M unit :=
  fun s => (Ok tt, mkState (model s) v (trace s)).

(** [del pretraind_model] *)
Definition del_pretraind_model : M unit :=
  fun s =>
    match pretraind_model s with
    | Unbound => (Raise (UnboundLocalError "pretraind_model"), s)
    | _ => (Ok tt, mkState (model s) Unbound (trace s))
    end.

(** The events that read the file system or the network. *)
Definition is_io_event (e : Event) : bool :=
  match e with
  | EvIsFile _ | EvTorchLoad _ | EvRestoreFrom _ | EvFromPretrained _ _ => true
  | _ => false
  end.

(** The events that load a checkpoint, download a model or apply weights. *)
Definition is_load_event (e : Event) : bool :=
  match e with
  | EvTorchLoad _ | EvRestoreFrom _ | EvFromPretrained _ _ | EvLoadStateDict _ => true
  | _ => false
  end.

(** A call of a collaborator that may raise. *)
Definition call {A} (ev : Event) (r : option A) (e : Exn) : M A :=
  bind (emit ev) (fun _ => match r with Some a => ret a | None => raise e end).

End Tensors.

Global Arguments Param : clear implicits.
Global Arguments Model : clear implicits.
Global Arguments PyObj : clear implicits.
Global Arguments Env : clear implicits.
Global Arguments Local : clear implicits.
Global Arguments State : clear implicits.
Global Arguments M : clear implicits.

Declare Scope py_scope.
Delimit Scope py_scope with py.
Notation "x <- c ;; k" := (bind c (fun x => k))
  (at level 100, c at next level, right associativity) : py_scope.
Notation "c ;;; k" := (bind c (fun _ => k))
  (at level 100, right associativity) : py_scope.
Open Scope py_scope.

(** ** The operations [main] calls on models *)

Section Program.

Context {Tensor : Type}.

Definition set_data (p : Param Tensor) (t : Tensor) : Param Tensor :=
  mkParam t (requires_grad p).

Definition set_requires_grad (b : bool) (p : Param Tensor) : Param Tensor :=
  mkParam (data p) b.

(** [m.state_dict()]: the tensor of every parameter, under its qualified name. *)
Definition state_dict (m : Model Tensor) : gmap string Tensor :=
  data <$> named_parameters m.

(** [m.encoder.state_dict()]: the tensors of the encoder's parameters, under
    their names inside the encoder. *)
Definition encoder_state_dict (m : Model Tensor) : gmap string Tensor :=
  map_fold
    (fun k p acc =>
       match strip_prefix encoder_prefix k with
       | Some k' => <[k' := data p]> acc
       | None => acc
       end)
    ∅ (named_parameters m).

(** Modelled from the spec: [torch.nn.Module.load_state_dict(sd, strict=False)],
    which is not part of the script.  Non-strict loading copies the entries
    whose names match a parameter of the target and ignores the unmatched
    names on both sides; the [requires_grad] flags are not touched. *)
Definition load_state_dict (sd : gmap string Tensor) (m : Model Tensor) : Model Tensor :=
  mkModel
    (map_imap
       (fun k p =>
          Some match sd !! k with
               | Some t => set_data p t
               | None => p
               end)
       (named_parameters m)).

(** Modelled from the spec: the same non-strict loading on the sub-module
    [m.encoder], whose parameters are named without the ["encoder."] prefix.
    The parameters outside the encoder are not visited. *)
Definition encoder_load_state_dict (sd : gmap string Tensor) (m : Model Tensor) : Model Tensor :=
  mkModel
    (map_imap
       (fun k p =>
          Some match strip_prefix encoder_prefix k with
               | Some k' =>
                   match sd !! k' with
                   | Some t => set_data p t
                   | None => p
                   end
               | None => p
               end)
       (named_parameters m)).

(** Modelled from the spec: [m.encoder.freeze()] and [m.encoder.unfreeze()],
    which are not part of the script, set [requires_grad] of every parameter
    of the encoder to [False], respectively [True]. *)
Definition encoder_set_requires_grad (b : bool) (m : Model Tensor) : Model Tensor :=
  mkModel
    (map_imap
       (fun k p => Some (if is_encoder_param k then set_requires_grad b p else p))
       (named_parameters m)).

Definition encoder_freeze : Model Tensor -> Model Tensor := encoder_set_requires_grad false.
Definition encoder_unfreeze : Model Tensor -> Model Tensor := encoder_set_requires_grad true.

(** ** The file system probe *)

(** [pathlib.Path(s)]: the empty string denotes the current directory. *)
Definition Path (s : string) : string :=
  if decide (s = EmptyString) then "." else s.

(** ["."] is the current directory of the process whatever [fs] records. *)
Definition stat (env : Env Tensor) (p : string) : option FsNode :=
  if decide (p = ".") then Some Directory else fs env !! p.

(** [p.is_file()] *)
Definition is_file (env : Env Tensor) (p : string) : bool :=
  match stat env p with
  | Some RegularFile => true
  | _ => false
  end.

(** ** [main], statement by statement *)

Section Main.

Variable env : Env Tensor.

Definition logging_info (msg : string) : M Tensor unit := emit (EvLog msg).

(** [Path(name).is_file()].  [is_file] is the answer of the probe; the
    theorems that depend on the answer take it as a hypothesis. *)
Definition Path_is_file (name : string) : M Tensor bool :=
  emit (EvIsFile name) ;;; ret (is_file env (Path name)).

(** [d[key]] on a dictionary *)
Definition getitem (d : gmap string (PyObj Tensor)) (key : string) : M Tensor (PyObj Tensor) :=
  match d !! key with
  | Some v => ret v
  | None => raise (KeyError key)
  end.

(** [model.load_state_dict(state_dict, strict=False)] *)
Definition model_load_state_dict (state_dict : PyObj Tensor) : M Tensor unit :=
  emit (EvLoadStateDict WholeModel) ;;;
  match state_dict with
  | PyStateDict sd => m <- get_model ;; put_model (load_state_dict sd m)
  | PyOther => raise TypeError
  end.

(** [model.encoder.load_state_dict(state_dict, strict=False)] *)
Definition model_encoder_load_state_dict (sd : gmap string Tensor) : M Tensor unit :=
  emit (EvLoadStateDict EncoderOnly) ;;;
  m <- get_model ;; put_model (encoder_load_state_dict sd m).

(** Lines 91-100: the two kinds of local file. *)
Definition local_file_state_dict (pretrained_encoder_name : string) : M Tensor (PyObj Tensor) :=
  if negb (endswith pretrained_encoder_name ".nemo") then
    logging_info ("Loading encoder from PyTorch Lightning checkpoint: " +:+ pretrained_encoder_name) ;;;
    ckpt <- call (EvTorchLoad pretrained_encoder_name)
                 (torch_load env pretrained_encoder_name) CorruptCheckpoint ;;
    state_dict <- getitem ckpt "state_dict" ;;
    assign_pretraind_model BoundNone ;;;
    ret state_dict
  else
    logging_info ("Loading pretrained encoder from NeMo file: " +:+ pretrained_encoder_name) ;;;
    pretraind_model <- call (EvRestoreFrom pretrained_encoder_name)
                            (ASRModel_restore_from env pretrained_encoder_name) CorruptCheckpoint ;;
    assign_pretraind_model (BoundModel pretraind_model) ;;;
    ret (PyStateDict (state_dict pretraind_model)).

(** Lines 105-110: the model class of a symbolic name. *)
Definition select_model_cls (pretrained_encoder_name : string) : M Tensor ModelCls :=
  if startswith pretrained_encoder_name "ssl_" then ret SpeechEncDecSelfSupervisedModel
  else if startswith pretrained_encoder_name "stt_" then ret ASRModel
  else raise (ValueError ("Unknown pretrained encoder: " +:+ pretrained_encoder_name)).

(** Lines 88-117: "Init encoder from pretrained model". *)
Definition init_encoder (cfg : Cfg) : M Tensor unit :=
  match pretrained_encoder_name cfg with
  | Some pretrained_encoder_name =>
      is_local <- Path_is_file pretrained_encoder_name ;;
      if is_local then
        state_dict <- local_file_state_dict pretrained_encoder_name ;;
        model_load_state_dict state_dict ;;;
        del_pretraind_model
      else
        logging_info ("Loading pretrained encoder from NGC: " +:+ pretrained_encoder_name) ;;;
        model_cls <- select_model_cls pretrained_encoder_name ;;
        pretraind_model <- call (EvFromPretrained model_cls pretrained_encoder_name)
                                (from_pretrained env model_cls pretrained_encoder_name)
                                RemoteLookupFailure ;;
        assign_pretraind_model (BoundModel pretraind_model) ;;;
        model_encoder_load_state_dict (encoder_state_dict pretraind_model) ;;;
        del_pretraind_model
  | None => logging_info "Not using pretrained encoder."
  end.

(** Lines 119-123: freeze or unfreeze the encoder. *)
Definition freeze_policy (cfg : Cfg) : M Tensor unit :=
  if pretrained_encoder_freeze cfg then
    logging_info "Freezing encoder..." ;;;
    m <- get_model ;; put_model (encoder_freeze m)
  else
    m <- get_model ;; put_model (encoder_unfreeze m).

(** Line 125: [trainer.fit(model)].  The model is trained in place, so it
    is the model the trainer left also when the call raises. *)
Definition fit : M Tensor unit :=
  m <- get_model ;;
  emit EvFit ;;;
  put_model (trainer_fit env m).1 ;;;
  if (trainer_fit env m).2 then ret tt else raise TrainingFailure.

(** Line 128: [model.prepare_test(trainer)] *)
Definition prepare_test : M Tensor bool :=
  emit EvPrepareTest ;;; m <- get_model ;; ret (model_prepare_test env m).

(** Line 129: [trainer.test(model)] *)
Definition test : M Tensor unit :=
  m <- get_model ;;
  call EvTest (if trainer_test env m then Some tt else None) TrainingFailure.

(** [hasattr(section, key)]: reading the key is tried, an [AttributeError]
    gives [False] and any other exception propagates. *)
Definition hasattr {A} (key : string) (l : Lookup A) : M Tensor bool :=
  match l with
  | NoKey => ret false
  | Mandatory => raise (MissingMandatoryValue key)
  | Value _ => ret true
  end.

(** [section.key] *)
Definition getattr {A} (key : string) (l : Lookup A) : M Tensor A :=
  match l with
  | NoKey => raise (AttributeError key)
  | Mandatory => raise (MissingMandatoryValue key)
  | Value v => ret v
  end.

(** Lines 127-129: the guarded test phase.  [and] evaluates its second
    operand only when the first is true; there [cfg.model.test_ds] is read
    again and [manifest_filepath] is read from it, which raises when
    [test_ds] is [None] or has no such key. *)
Definition test_phase (cfg : Cfg) : M Tensor unit :=
  has_test_ds <- hasattr "test_ds" (model_test_ds cfg) ;;
  if has_test_ds then
    test_ds <- getattr "test_ds" (model_test_ds cfg) ;;
    manifest <- match test_ds with
                | Some section => getattr "manifest_filepath" (manifest_filepath section)
                | None => raise (AttributeError "manifest_filepath")
                end ;;
    match manifest with
    | Some _ =>
        ready <- prepare_test ;;
        if ready then test else ret tt
    | None => ret tt
    end
  else ret tt.

(** Lines 88-123: the encoder is initialised, then frozen or unfrozen. *)
Definition setup_encoder (cfg : Cfg) : M Tensor unit :=
  init_encoder cfg ;;;
  freeze_policy cfg.

(** Lines 81-125, on the model built at line 85. *)
Definition train (cfg : Cfg) : M Tensor unit :=
  logging_info ("Hydra config: " +:+ OmegaConf_to_yaml env cfg) ;;;
  setup_encoder cfg ;;;
  fit.

Definition main (cfg : Cfg) : M Tensor unit :=
  train cfg ;;;
  test_phase cfg.

End Main.

(** The state at line 85: the freshly built model, no [pretraind_model] yet,
    nothing logged. *)
Definition initial_state (m : Model Tensor) : State Tensor := mkState m Unbound [].

(** ** Properties of runs *)

(** The three conditions of the test phase, on the trained model [m]:
    [cfg.model] has a section [test_ds], its [manifest_filepath] is not
    [None], and [model.prepare_test(trainer)] is true. *)
Definition test_gate (env : Env Tensor) (cfg : Cfg) (m : Model Tensor) : Prop :=
  exists test_ds path,
    model_test_ds cfg = Value (Some test_ds) /\
    manifest_filepath test_ds = Value (Some path) /\
    model_prepare_test env m = true.

(** One of the three conditions fails in the way the guard provides for:
    [cfg.model] has no [test_ds], or the section's [manifest_filepath] is
    [None], or [model.prepare_test(trainer)] is false. *)
Definition test_gate_closed (env : Env Tensor) (cfg : Cfg) (m : Model Tensor) : Prop :=
  model_test_ds cfg = NoKey
  \/ (exists test_ds,
        model_test_ds cfg = Value (Some test_ds) /\
        manifest_filepath test_ds = Value None)
  \/ (exists test_ds path,
        model_test_ds cfg = Value (Some test_ds) /\
        manifest_filepath test_ds = Value (Some path) /\
        model_prepare_test env m = false).

(** The guard of line 127 cannot be evaluated: [test_ds] is '???', or it
    is [None] (or another value that is not a section), or it is a section
    whose [manifest_filepath] is not there or is '???'. *)
Definition test_guard_raises (cfg : Cfg) : Prop :=
  model_test_ds cfg = Mandatory
  \/ model_test_ds cfg = Value None
  \/ (exists test_ds,
        model_test_ds cfg = Value (Some test_ds) /\
        (manifest_filepath test_ds = NoKey \/ manifest_filepath test_ds = Mandatory)).

(** A step from [s] returned normally, left the model as it was and made no
    file or network access. *)
Definition leaves_model_untouched (s : State Tensor) (r : Outcome unit * State Tensor) : Prop :=
  r.1 = Ok tt /\
  model r.2 = model s /\
  pretraind_model r.2 = pretraind_model s /\
  exists evs, trace r.2 = trace s ++ evs /\ Forall (fun e => is_io_event e = false) evs.

(** The conditions of the test phase when a non-empty manifest path is one
    that is neither [None] nor the empty string. *)
Definition test_gate_nonempty (env : Env Tensor) (cfg : Cfg) (m : Model Tensor) : Prop :=
  exists test_ds path,
    model_test_ds cfg = Value (Some test_ds) /\
    manifest_filepath test_ds = Value (Some path) /\
    path <> EmptyString /\
    model_prepare_test env m = true.

(** The line logged for a named source (lines 92, 96 and 104), given the
    answer of the file probe. *)
Definition branch_log (is_local : bool) (name : string) : string :=
  if is_local then
    if endswith name ".nemo" then "Loading pretrained encoder from NeMo file: " +:+ name
    else "Loading encoder from PyTorch Lightning checkpoint: " +:+ name
  else "Loading pretrained encoder from NGC: " +:+ name.

(** [cfg.pretrained_encoder.name] is empty or absent. *)
Definition name_empty_or_absent (cfg : Cfg) : Prop :=
  pretrained_encoder_name cfg = None \/ pretrained_encoder_name cfg = Some EmptyString.

(** A computation that never calls [trainer.test]. *)
Definition no_test {A} (c : M Tensor A) : Prop :=
  forall s r s', c s = (r, s') -> EvTest ∈ trace s' -> EvTest ∈ trace s.


(** ** Classes of events *)

(** The events of the local-file branch (lines 91-102): reading a
    checkpoint, restoring an archive, loading into the whole model. *)
Definition is_local_file_event (e : Event) : bool :=
  match e with
  | EvTorchLoad _ | EvRestoreFrom _ | EvLoadStateDict WholeModel => true
  | _ => false
  end.

(** The events of the symbolic-name branch (lines 104-115): fetching from
    the registry, loading into the encoder. *)
Definition is_registry_event (e : Event) : bool :=
  match e with
  | EvFromPretrained _ _ | EvLoadStateDict EncoderOnly => true
  | _ => false
  end.

(** The calls into the trainer after line 123. *)
Definition is_trainer_event (e : Event) : bool :=
  match e with
  | EvFit | EvPrepareTest | EvTest => true
  | _ => false
  end.

End Program.

(** ** A concrete run environment *)

Module Example.

(** The model under training: one encoder parameter, one decoder parameter. *)
Definition target : Model Z :=
  mkModel (<["encoder.w" := mkParam 1%Z true]> (<["decoder.w" := mkParam 2%Z true]> ∅)).

(** A pretrained source model. *)
Definition source : Model Z :=
  mkModel (<["encoder.w" := mkParam 10%Z false]>
             (<["encoder.b" := mkParam 30%Z false]>
                (<["decoder.w" := mkParam 20%Z false]> ∅))).

Definition weights : gmap string Z :=
  <["encoder.w" := 10%Z]> (<["decoder.w" := 20%Z]> ∅).

(** A Lightning checkpoint, and a dictionary without ["state_dict"]. *)
Definition checkpoint : gmap string (PyObj Z) :=
  <["state_dict" := PyStateDict weights]> (<["epoch" := PyOther]> ∅).

Definition bare_checkpoint : gmap string (PyObj Z) :=
  <["epoch" := PyOther]> ∅.

Definition env : Env Z :=
  mkEnv
    (<["last.ckpt" := RegularFile]>
       (<["bare.ckpt" := RegularFile]>
          (<["slu.nemo" := RegularFile]> (<["data" := Directory]> ∅))))
    (fun path =>
       if decide (path = "last.ckpt") then Some checkpoint
       else if decide (path = "bare.ckpt") then Some bare_checkpoint
       else None)
    (fun path => if decide (path = "slu.nemo") then Some source else None)
    (fun cls name =>
       match cls with
       | SpeechEncDecSelfSupervisedModel =>
           if decide (name = "ssl_en_conformer_large") then Some source else None
       | ASRModel =>
           if decide (name = "stt_en_conformer_ctc_large") then Some source else None
       end)
    (fun m => (m, true))
    (fun _ => true)
    (fun _ => true)
    (fun _ => "pretrained_encoder: ...").

(** A configuration with the given pretrained encoder name, freezing the
    encoder and without a test set. *)
Definition cfg_of (name : option string) : Cfg := mkCfg name true NoKey.

(** Configurations without pretrained encoder and with a test set. *)
Definition cfg_test : Cfg :=
  mkCfg None false (Value (Some (mkTestDs (Value (Some "test_manifest.json"))))).

Definition cfg_empty_manifest : Cfg :=
  mkCfg None false (Value (Some (mkTestDs (Value (Some EmptyString))))).

Definition cfg_nemo : Cfg := cfg_of (Some "slu.nemo").

Definition s0 : State Z := initial_state target.

(** The states after encoder initialisation from the archive, and after
    training without pretrained encoder. *)
Definition s_loaded : State Z := (init_encoder env cfg_nemo s0).2.

Definition s_trained : State Z := (train env cfg_test s0).2.

Definition s_trained_empty_manifest : State Z := (train env cfg_empty_manifest s0).2.

(** The parameter [k] of the model at the end of [main]. *)
Definition final_param (cfg : Cfg) (k : string) : option (Param Z) :=
  named_parameters (model (main env cfg s0).2) !! k.

End Example.

(** ** A run environment in which every collaborator fails *)

Module Faulty.

Definition env : Env Z :=
  mkEnv
    (<["corrupt.ckpt" := RegularFile]>
       (<["corrupt.nemo" := RegularFile]> (<["ssl_local.ckpt" := RegularFile]> ∅)))
    (fun _ => None)
    (fun _ => None)
    (fun _ _ => None)
    (fun m => (load_state_dict {["decoder.w" := 7%Z]} m, false))
    (fun _ => false)
    (fun _ => false)
    (fun _ => "pretrained_encoder: ...").

(** No pretrained encoder, no freezing, a test set. *)
Definition cfg_plain : Cfg :=
  mkCfg None false (Value (Some (mkTestDs (Value (Some "test_manifest.json"))))).

Definition cfg_of (name : string) : Cfg := mkCfg (Some name) false NoKey.

End Faulty.

(** ** Facts about the string methods *)

Lemma strip_prefix_app (p s : string) : strip_prefix p (p +:+ s) = Some s.
Proof.
  induction p as [|a p IH]; simpl; [done|].
  by rewrite Ascii.eqb_refl.
Qed.

Lemma strip_prefix_Some (p s r : string) :
  strip_prefix p s = Some r -> s = p +:+ r.
Proof.
  revert s. induction p as [|a p IH]; intros s; simpl.
  - by intros [= ->].
  - destruct s as [|b s]; [done|].
    destruct (Ascii.eqb a b) eqn:E; [|done].
    apply Ascii.eqb_eq in E as ->. intros H. by rewrite (IH _ H).
Qed.

Lemma startswith_strip_prefix (s p : string) :
  startswith s p = true <-> is_Some (strip_prefix p s).
Proof.
  revert s. induction p as [|a p IH]; intros s; simpl.
  - split; [intros _; by eexists | done].
  - destruct s as [|b s].
    + split; [done | by intros [? ?]].
    + destruct (Ascii.eqb a b); simpl; [apply IH|].
      split; [done | by intros [? ?]].
Qed.

Lemma strip_prefix_None (s p : string) :
  startswith s p = false <-> strip_prefix p s = None.
Proof.
  rewrite <-not_true_iff_false, startswith_strip_prefix, eq_None_not_Some. done.
Qed.

Lemma startswith_app (p s : string) : startswith (p +:+ s) p = true.
Proof. apply startswith_strip_prefix. rewrite strip_prefix_app. eauto. Qed.

(** [endswith] is the test for a suffix. *)

Lemma append_cons (a : Ascii.ascii) (s t : string) :
  String a s +:+ t = String a (s +:+ t).
Proof. reflexivity. Qed.

Lemma append_assoc (s t u : string) : (s +:+ t) +:+ u = s +:+ (t +:+ u).
Proof. induction s as [|a s IH]; [done|]. by rewrite !append_cons, IH. Qed.

Lemma append_empty_r (s : string) : s +:+ EmptyString = s.
Proof. induction s as [|a s IH]; [done|]. by rewrite append_cons, IH. Qed.

Lemma rev_app_append (s acc : string) : String.rev_app s acc = String.rev s +:+ acc.
Proof.
  unfold String.rev. revert acc.
  induction s as [|a s IH]; intros acc; simpl; [done|].
  rewrite (IH (String a acc)), (IH (String a EmptyString)).
  by rewrite append_assoc.
Qed.

Lemma rev_cons (a : Ascii.ascii) (s : string) :
  String.rev (String a s) = String.rev s +:+ String a EmptyString.
Proof. unfold String.rev at 1. simpl. apply rev_app_append. Qed.

Lemma rev_append (s t : string) : String.rev (s +:+ t) = String.rev t +:+ String.rev s.
Proof.
  induction s as [|a s IH].
  - by rewrite append_empty_r.
  - by rewrite append_cons, !rev_cons, IH, append_assoc.
Qed.

Lemma rev_involutive (s : string) : String.rev (String.rev s) = s.
Proof.
  induction s as [|a s IH]; [done|].
  by rewrite rev_cons, rev_append, IH.
Qed.

(** [s.endswith(suffix)] holds exactly when [s] is some stem followed by
    [suffix]. *)
Lemma endswith_spec (s suffix : string) :
  endswith s suffix = true <-> exists stem, s = stem +:+ suffix.
Proof.
  unfold endswith. split.
  - intros [r Hr]%startswith_strip_prefix. apply strip_prefix_Some in Hr.
    exists (String.rev r).
    by rewrite <-(rev_involutive s), Hr, rev_append, rev_involutive.
  - intros [stem ->]. rewrite rev_append. apply startswith_app.
Qed.

(** A name cannot carry both prefixes: the [elif] at line 107 never shadows
    a name that the [if] at line 105 would have taken. *)
Lemma ssl_not_stt (s : string) :
  startswith s "ssl_" = true -> startswith s "stt_" = false.
Proof.
  intros H. destruct s as [|a [|b s]]; cbn [startswith] in *; [done| |].
  - by rewrite andb_false_r in H.
  - apply andb_true_iff in H as [Ha H]. apply andb_true_iff in H as [Hb _].
    apply Ascii.eqb_eq in Ha as <-. by apply Ascii.eqb_eq in Hb as <-.
Qed.

(** ** Facts about the operations on models *)

Section ModelFacts.

Context {Tensor : Type}.
Implicit Types (m src : Model Tensor) (sd : gmap string Tensor) (k : string).

Lemma state_dict_lookup m k :
  state_dict m !! k = data <$> named_parameters m !! k.
Proof. unfold state_dict. by rewrite lookup_fmap. Qed.

(** The encoder's weights mapping has, under [k], the tensor of the
    parameter named ["encoder." ++ k]. *)
Lemma encoder_state_dict_lookup m k :
  encoder_state_dict m !! k = data <$> named_parameters m !! (encoder_prefix +:+ k).
Proof.
  unfold encoder_state_dict. revert k.
  apply (map_fold_weak_ind
           (fun (r : gmap string Tensor) (ps : gmap string (Param Tensor)) =>
              forall k, r !! k = data <$> ps !! (encoder_prefix +:+ k))).
  - intros k. by rewrite !lookup_empty.
  - intros i x ps r Hi IH k.
    destruct (strip_prefix encoder_prefix i) as [i'|] eqn:Hs.
    + apply strip_prefix_Some in Hs as ->.
      destruct (decide (i' = k)) as [->|Hne].
      * by rewrite !lookup_insert_eq.
      * rewrite !lookup_insert_ne; [apply IH| |done].
        intros Heq. by apply (inj (String.append encoder_prefix)) in Heq.
    + rewrite lookup_insert_ne; [apply IH|].
      intros ->. by rewrite strip_prefix_app in Hs.
Qed.

Lemma load_state_dict_lookup sd m k :
  named_parameters (load_state_dict sd m) !! k =
  (fun p => match sd !! k with Some t => set_data p t | None => p end)
    <$> named_parameters m !! k.
Proof.
  unfold load_state_dict; simpl. rewrite map_lookup_imap.
  by destruct (named_parameters m !! k).
Qed.

Lemma encoder_load_state_dict_lookup sd m k :
  named_parameters (encoder_load_state_dict sd m) !! k =
  (fun p => match strip_prefix encoder_prefix k with
            | Some k' => match sd !! k' with Some t => set_data p t | None => p end
            | None => p
            end) <$> named_parameters m !! k.
Proof.
  unfold encoder_load_state_dict; simpl. rewrite map_lookup_imap.
  by destruct (named_parameters m !! k).
Qed.

(** Loading into the encoder leaves every parameter outside it as it was. *)
Lemma encoder_load_state_dict_frame sd m k :
  is_encoder_param k = false ->
  named_parameters (encoder_load_state_dict sd m) !! k = named_parameters m !! k.
Proof.
  intros Hk. rewrite encoder_load_state_dict_lookup.
  apply strip_prefix_None in Hk. unfold encoder_prefix in *. rewrite Hk.
  by destruct (named_parameters m !! k).
Qed.

(** Loading the encoder of [src] into the encoder of [m]: the parameter
    ["encoder." ++ k'] takes the tensor of the parameter of the same name
    in [src] when there is one, and keeps its own otherwise. *)
Lemma encoder_load_from_encoder src m k' :
  named_parameters (encoder_load_state_dict (encoder_state_dict src) m)
    !! (encoder_prefix +:+ k') =
  (fun p => match named_parameters src !! (encoder_prefix +:+ k') with
            | Some q => set_data p (data q)
            | None => p
            end) <$> named_parameters m !! (encoder_prefix +:+ k').
Proof.
  rewrite encoder_load_state_dict_lookup, strip_prefix_app, encoder_state_dict_lookup.
  by destruct (named_parameters src !! _).
Qed.

Lemma load_state_dict_requires_grad sd m k p :
  named_parameters (load_state_dict sd m) !! k = Some p ->
  exists p0, named_parameters m !! k = Some p0 /\ requires_grad p = requires_grad p0.
Proof.
  rewrite load_state_dict_lookup.
  destruct (named_parameters m !! k) as [p0|]; simpl; [|done].
  intros [= <-]. exists p0. split; [done|]. by destruct (sd !! k).
Qed.

Lemma encoder_set_requires_grad_lookup b m k :
  named_parameters (encoder_set_requires_grad b m) !! k =
  (fun p => if is_encoder_param k then set_requires_grad b p else p)
    <$> named_parameters m !! k.
Proof.
  unfold encoder_set_requires_grad; simpl. rewrite map_lookup_imap.
  by destruct (named_parameters m !! k).
Qed.

(** After [freeze] ([b = false]) or [unfreeze] ([b = true]) every encoder
    parameter has [requires_grad = b]. *)
Lemma encoder_set_requires_grad_encoder b m k p :
  is_encoder_param k = true ->
  named_parameters (encoder_set_requires_grad b m) !! k = Some p ->
  requires_grad p = b.
Proof.
  intros Hk. rewrite encoder_set_requires_grad_lookup, Hk.
  destruct (named_parameters m !! k); simpl; [|done]. by intros [= <-].
Qed.

(** [freeze] and [unfreeze] change no tensor, and no flag outside the encoder. *)
Lemma encoder_set_requires_grad_data b m :
  state_dict (encoder_set_requires_grad b m) = state_dict m.
Proof.
  apply map_eq; intros k.
  rewrite !state_dict_lookup, encoder_set_requires_grad_lookup.
  destruct (named_parameters m !! k); simpl; [|done].
  by destruct (is_encoder_param k).
Qed.

Lemma encoder_set_requires_grad_frame b m k :
  is_encoder_param k = false ->
  named_parameters (encoder_set_requires_grad b m) !! k = named_parameters m !! k.
Proof.
  intros Hk. rewrite encoder_set_requires_grad_lookup, Hk.
  by destruct (named_parameters m !! k).
Qed.

End ModelFacts.

(** ** The file probe on the empty string *)

(** The empty path is the current directory, which is no regular file. *)
Lemma Path_empty_not_file {Tensor : Type} (env : Env Tensor) :
  is_file env (Path EmptyString) = false.
Proof. reflexivity. Qed.

(** ** Running the monad *)

Section Runs.

Context {Tensor : Type}.

Lemma bind_assoc {A B C} (c : M Tensor A) (k : A -> M Tensor B) (h : B -> M Tensor C) s :
  bind (bind c k) h s = bind c (fun a => bind (k a) h) s.
Proof. unfold bind. by destruct (c s) as [[a|e] s']. Qed.

Lemma bind_Ok {A B} (c : M Tensor A) (k : A -> M Tensor B) s a s' :
  c s = (Ok a, s') -> bind c k s = k a s'.
Proof. unfold bind. by intros ->. Qed.

Lemma bind_Raise {A B} (c : M Tensor A) (k : A -> M Tensor B) s e s' :
  c s = (Raise e, s') -> bind c k s = (Raise e, s').
Proof. unfold bind. by intros ->. Qed.

End Runs.

(** ** Computations that never call [trainer.test] *)

Section NoTest.

Context {Tensor : Type}.

Lemma no_test_ret {A} (a : A) : no_test (@ret Tensor A a).
Proof. by intros s r s' [= _ <-]. Qed.

Lemma no_test_raise {A} (e : Exn) : no_test (@raise Tensor A e).
Proof. by intros s r s' [= _ <-]. Qed.

Lemma no_test_bind {A B} (c : M Tensor A) (k : A -> M Tensor B) :
  no_test c -> (forall a, no_test (k a)) -> no_test (bind c k).
Proof.
  intros Hc Hk s r s'. unfold bind.
  destruct (c s) as [[a|e] s1] eqn:Hcs.
  - intros Hks Hin. eapply Hc; [done|]. by eapply Hk.
  - intros [= _ <-]. by eapply Hc.
Qed.

Lemma no_test_emit (e : Event) : e <> EvTest -> no_test (@emit Tensor e).
Proof.
  intros He s r s' [= _ <-]; simpl.
  rewrite elem_of_app, list_elem_of_singleton. by intros [?|?].
Qed.

Lemma no_test_get_model : no_test (@get_model Tensor).
Proof. by intros s r s' [= _ <-]. Qed.

Lemma no_test_put_model (m : Model Tensor) : no_test (put_model m).
Proof. by intros s r s' [= _ <-]. Qed.

Lemma no_test_assign (v : Local Tensor) : no_test (assign_pretraind_model v).
Proof. by intros s r s' [= _ <-]. Qed.

Lemma no_test_del : no_test (@del_pretraind_model Tensor).
Proof.
  intros s r s'. unfold del_pretraind_model.
  by destruct (pretraind_model s); intros [= _ <-].
Qed.

Lemma no_test_call {A} (ev : Event) (r : option A) (e : Exn) :
  ev <> EvTest -> no_test (@call Tensor A ev r e).
Proof.
  intros Hev. unfold call. apply no_test_bind; [by apply no_test_emit|].
  intros _. destruct r; [apply no_test_ret | apply no_test_raise].
Qed.

End NoTest.

Ltac solve_no_test :=
  repeat first
    [ apply no_test_ret | apply no_test_raise | apply no_test_get_model
    | apply no_test_put_model | apply no_test_assign | apply no_test_del
    | apply no_test_call; [discriminate] | apply no_test_emit; [discriminate]
    | apply no_test_bind; [|intros ?]
    | match goal with |- no_test (match ?x with _ => _ end) => destruct x end ].

(** Closes the two statements about the test gate once the run is known. *)
Ltac gate_cases :=
  repeat match goal with
         | |- _ /\ _ => split
         | |- _ <-> _ => split
         | |- _ -> _ => intro
         | |- ~ _ => intro
         | H : _ \/ _ |- _ => destruct H
         | H : exists _, _ |- _ => destruct H
         | H : _ /\ _ |- _ => destruct H
         | H : _ ∈ _ ++ _ |- _ => apply elem_of_app in H
         | H : _ ∈ [_] |- _ => apply list_elem_of_singleton in H
         end;
  simplify_eq; try done; try congruence;
  try (apply elem_of_app; right; by apply list_elem_of_singleton);
  try (by eexists _, _).

Ltac run_main :=
  unfold main, train, setup_encoder, init_encoder, local_file_state_dict,
    select_model_cls, model_load_state_dict, model_encoder_load_state_dict,
    Path_is_file, getitem, call, logging_info, del_pretraind_model,
    assign_pretraind_model, get_model, put_model, emit, raise, bind, ret;
  cbn [fst snd model pretraind_model trace negb].

Ltac step :=
  cbn -[startswith endswith is_file Path String.append lookup
        load_state_dict encoder_load_state_dict state_dict encoder_state_dict
        encoder_freeze encoder_unfreeze].

Section Claims.

Context {Tensor : Type}.
Implicit Types (env : Env Tensor) (s : State Tensor) (cfg : Cfg) (name : string).

(** C2, as amended: when [cfg.pretrained_encoder.name] is [None], encoder
    initialisation only logs that no pretrained encoder is used.  It
    returns normally, the model is the freshly built one, and the single
    event added to the trace is a log line, so no file or network access. *)
Theorem init_encoder_absent env cfg s :
  pretrained_encoder_name cfg = None ->
  init_encoder env cfg s =
    (Ok tt, mkState (model s) (pretraind_model s)
                    (trace s ++ [EvLog "Not using pretrained encoder."]))
  /\ leaves_model_untouched s (init_encoder env cfg s).
Proof.
  intros Hname. unfold leaves_model_untouched, init_encoder. rewrite Hname.
  do 4 (split; [done|]).
  exists [EvLog "Not using pretrained encoder."]. split; [done|].
  by repeat constructor.
Qed.

(** C9: an empty string is not [None].  [Path] of the empty string is the current
    directory and not a file, the empty name carries neither prefix, and
    encoder initialisation raises [ValueError("Unknown pretrained encoder: ")]
    after the file probe and the log line; [main] stops there. *)
Theorem empty_name_raises env (freeze : bool) (test_ds : Lookup (option TestDsCfg)) s :
  init_encoder env (mkCfg (Some EmptyString) freeze test_ds) s =
    (Raise (ValueError "Unknown pretrained encoder: "),
     mkState (model s) (pretraind_model s)
             (trace s ++ [EvIsFile EmptyString;
                          EvLog "Loading pretrained encoder from NGC: "]))
  /\ main env (mkCfg (Some EmptyString) freeze test_ds) s =
    (Raise (ValueError "Unknown pretrained encoder: "),
     mkState (model s) (pretraind_model s)
             (trace s ++
                [EvLog ("Hydra config: " +:+
                          OmegaConf_to_yaml env (mkCfg (Some EmptyString) freeze test_ds));
                 EvIsFile EmptyString;
                 EvLog "Loading pretrained encoder from NGC: "])).
Proof.
  split; run_main; step; rewrite Path_empty_not_file; step; by rewrite <-!app_assoc.
Qed.

(** C3: a name that is not a local file and starts with neither ["ssl_"]
    nor ["stt_"] makes encoder initialisation raise [ValueError] with the
    name in its message.  Up to the failure the trace gained the file probe
    and a log line: nothing was loaded, downloaded or applied, and the model
    is unchanged. *)
Theorem unknown_encoder_kind env cfg name s :
  pretrained_encoder_name cfg = Some name ->
  is_file env (Path name) = false ->
  startswith name "ssl_" = false ->
  startswith name "stt_" = false ->
  exists evs,
    init_encoder env cfg s =
      (Raise (ValueError ("Unknown pretrained encoder: " +:+ name)),
       mkState (model s) (pretraind_model s) (trace s ++ evs))
    /\ evs = [EvIsFile name; EvLog ("Loading pretrained encoder from NGC: " +:+ name)]
    /\ Forall (fun e => is_load_event e = false) evs.
Proof.
  intros Hname Hfile Hssl Hstt. eexists. split; [|split; [reflexivity|]].
  - run_main. rewrite Hname. step. rewrite Hfile, Hssl, Hstt. step.
    by rewrite <-app_assoc.
  - by repeat constructor.
Qed.

(** C10: on an existing local file without the [".nemo"] suffix whose
    loaded dictionary has no ["state_dict"] entry, encoder initialisation
    raises [KeyError("state_dict")] right after [torch.load]: that load is
    the only load event, no weights were applied and the model is unchanged. *)
Theorem raw_checkpoint_missing_key env cfg name ckpt s :
  pretrained_encoder_name cfg = Some name ->
  is_file env (Path name) = true ->
  endswith name ".nemo" = false ->
  torch_load env name = Some ckpt ->
  ckpt !! "state_dict" = None ->
  exists evs,
    init_encoder env cfg s =
      (Raise (KeyError "state_dict"),
       mkState (model s) (pretraind_model s) (trace s ++ evs))
    /\ evs = [EvIsFile name;
              EvLog ("Loading encoder from PyTorch Lightning checkpoint: " +:+ name);
              EvTorchLoad name]
    /\ Forall (fun e => is_load_event e = false \/ e = EvTorchLoad name) evs.
Proof.
  intros Hname Hfile Hsuf Hload Hkey. eexists. split; [|split; [reflexivity|]].
  - run_main. rewrite Hname. step. rewrite Hfile, Hsuf. step.
    rewrite Hload. step. rewrite Hkey. step. by rewrite <-!app_assoc.
  - repeat constructor; by eauto.
Qed.

(** C4: on an existing local file without the [".nemo"] suffix,
    [torch.load] reads a dictionary from the file and its ["state_dict"]
    entry is applied, non-strictly, to the whole model: every parameter of
    the model, in the encoder or not, whose name is in the mapping takes the
    tensor stored there, and every other parameter keeps its own. *)
Theorem raw_checkpoint_whole_model env cfg name ckpt sd s :
  pretrained_encoder_name cfg = Some name ->
  is_file env (Path name) = true ->
  endswith name ".nemo" = false ->
  torch_load env name = Some ckpt ->
  ckpt !! "state_dict" = Some (PyStateDict sd) ->
  exists s',
    init_encoder env cfg s = (Ok tt, s')
    /\ trace s' = trace s ++
         [EvIsFile name;
          EvLog ("Loading encoder from PyTorch Lightning checkpoint: " +:+ name);
          EvTorchLoad name;
          EvLoadStateDict WholeModel]
    /\ model s' = load_state_dict sd (model s)
    /\ pretraind_model s' = Unbound
    /\ forall k,
         named_parameters (model s') !! k =
         (fun p => match sd !! k with Some t => set_data p t | None => p end)
           <$> named_parameters (model s) !! k.
Proof.
  intros Hname Hfile Hsuf Hload Hkey. eexists. split; [|split; [|split; [|split]]].
  - run_main. rewrite Hname. step. rewrite Hfile, Hsuf. step.
    rewrite Hload. step. rewrite Hkey. step. reflexivity.
  - step. by rewrite <-!app_assoc.
  - reflexivity.
  - reflexivity.
  - intros k. step. apply load_state_dict_lookup.
Qed.

(** C5: on an existing local file with the [".nemo"] suffix,
    [ASRModel.restore_from] restores a source model, its whole
    [state_dict()] is applied, non-strictly, to the whole model, and the
    variable holding the restored model is deleted afterwards. *)
Theorem nemo_archive_whole_model env cfg name src s :
  pretrained_encoder_name cfg = Some name ->
  is_file env (Path name) = true ->
  endswith name ".nemo" = true ->
  ASRModel_restore_from env name = Some src ->
  exists s',
    init_encoder env cfg s = (Ok tt, s')
    /\ trace s' = trace s ++
         [EvIsFile name;
          EvLog ("Loading pretrained encoder from NeMo file: " +:+ name);
          EvRestoreFrom name;
          EvLoadStateDict WholeModel]
    /\ model s' = load_state_dict (state_dict src) (model s)
    /\ pretraind_model s' = Unbound
    /\ forall k,
         named_parameters (model s') !! k =
         (fun p => match named_parameters src !! k with
                   | Some q => set_data p (data q)
                   | None => p
                   end) <$> named_parameters (model s) !! k.
Proof.
  intros Hname Hfile Hsuf Hload. eexists. split; [|split; [|split; [|split]]].
  - run_main. rewrite Hname. step. rewrite Hfile, Hsuf. step.
    rewrite Hload. step. reflexivity.
  - step. by rewrite <-!app_assoc.
  - reflexivity.
  - reflexivity.
  - intros k. step. rewrite load_state_dict_lookup, state_dict_lookup.
    by destruct (named_parameters src !! k).
Qed.

(** What the symbolic-name branch does once the model class is chosen. *)
Lemma init_encoder_from_pretrained env cfg name cls src s :
  pretrained_encoder_name cfg = Some name ->
  is_file env (Path name) = false ->
  (forall s0 : State Tensor, select_model_cls name s0 = (Ok cls, s0)) ->
  from_pretrained env cls name = Some src ->
  init_encoder env cfg s =
    (Ok tt,
     mkState (encoder_load_state_dict (encoder_state_dict src) (model s)) Unbound
             (trace s ++
                [EvIsFile name;
                 EvLog ("Loading pretrained encoder from NGC: " +:+ name);
                 EvFromPretrained cls name;
                 EvLoadStateDict EncoderOnly])).
Proof.
  intros Hname Hfile Hcls Hload.
  unfold init_encoder. rewrite Hname.
  unfold Path_is_file, logging_info, emit, ret, bind at 1 2 3 4. step.
  rewrite Hfile. unfold bind at 1. step. unfold bind at 1. rewrite Hcls.
  run_main. rewrite Hload. step. by rewrite <-!app_assoc.
Qed.

(** C6: a name that is not a local file and starts with ["ssl_"] is
    fetched with [SpeechEncDecSelfSupervisedModel.from_pretrained], and only
    the encoder of the fetched model is copied, non-strictly, into the
    encoder of the model: a parameter ["encoder." ++ k] takes the tensor of
    the source parameter of that name when there is one, and no parameter
    outside the encoder changes. *)
Theorem ssl_name_encoder_only env cfg name src s :
  pretrained_encoder_name cfg = Some name ->
  is_file env (Path name) = false ->
  startswith name "ssl_" = true ->
  from_pretrained env SpeechEncDecSelfSupervisedModel name = Some src ->
  exists s',
    init_encoder env cfg s = (Ok tt, s')
    /\ trace s' = trace s ++
         [EvIsFile name;
          EvLog ("Loading pretrained encoder from NGC: " +:+ name);
          EvFromPretrained SpeechEncDecSelfSupervisedModel name;
          EvLoadStateDict EncoderOnly]
    /\ model s' = encoder_load_state_dict (encoder_state_dict src) (model s)
    /\ pretraind_model s' = Unbound
    /\ (forall k, is_encoder_param k = false ->
         named_parameters (model s') !! k = named_parameters (model s) !! k)
    /\ (forall k,
         named_parameters (model s') !! (encoder_prefix +:+ k) =
         (fun p => match named_parameters src !! (encoder_prefix +:+ k) with
                   | Some q => set_data p (data q)
                   | None => p
                   end) <$> named_parameters (model s) !! (encoder_prefix +:+ k)).
Proof.
  intros Hname Hfile Hssl Hload. eexists.
  split; [|split; [|split; [|split; [|split]]]].
  - eapply init_encoder_from_pretrained; [done..| |done].
    intros s0. unfold select_model_cls. by rewrite Hssl.
  - reflexivity.
  - reflexivity.
  - reflexivity.
  - intros k Hk. by apply encoder_load_state_dict_frame.
  - intros k. apply encoder_load_from_encoder.
Qed.

(** C7: a name that is not a local file and starts with ["stt_"] is
    fetched with [ASRModel.from_pretrained], and only the encoder of the
    fetched model is copied, non-strictly, into the encoder of the model. *)
Theorem stt_name_encoder_only env cfg name src s :
  pretrained_encoder_name cfg = Some name ->
  is_file env (Path name) = false ->
  startswith name "stt_" = true ->
  from_pretrained env ASRModel name = Some src ->
  exists s',
    init_encoder env cfg s = (Ok tt, s')
    /\ trace s' = trace s ++
         [EvIsFile name;
          EvLog ("Loading pretrained encoder from NGC: " +:+ name);
          EvFromPretrained ASRModel name;
          EvLoadStateDict EncoderOnly]
    /\ model s' = encoder_load_state_dict (encoder_state_dict src) (model s)
    /\ pretraind_model s' = Unbound
    /\ (forall k, is_encoder_param k = false ->
         named_parameters (model s') !! k = named_parameters (model s) !! k)
    /\ (forall k,
         named_parameters (model s') !! (encoder_prefix +:+ k) =
         (fun p => match named_parameters src !! (encoder_prefix +:+ k) with
                   | Some q => set_data p (data q)
                   | None => p
                   end) <$> named_parameters (model s) !! (encoder_prefix +:+ k)).
Proof.
  intros Hname Hfile Hstt Hload. eexists.
  split; [|split; [|split; [|split; [|split]]]].
  - eapply init_encoder_from_pretrained; [done..| |done].
    intros s0. unfold select_model_cls. rewrite Hstt.
    destruct (startswith name "ssl_") eqn:Hssl; [|done].
    apply ssl_not_stt in Hssl. congruence.
  - reflexivity.
  - reflexivity.
  - reflexivity.
  - intros k Hk. by apply encoder_load_state_dict_frame.
  - intros k. apply encoder_load_from_encoder.
Qed.

(** C8: whenever encoder initialisation returns normally, whichever branch
    it took, the next step freezes or unfreezes the encoder as
    [cfg.pretrained_encoder.freeze] says: afterwards every encoder parameter
    has [requires_grad = not freeze], while all tensors and the parameters
    outside the encoder are as initialisation left them. *)
Theorem freeze_policy_applied env cfg s s1 :
  init_encoder env cfg s = (Ok tt, s1) ->
  exists s2,
    setup_encoder env cfg s = (Ok tt, s2)
    /\ model s2 =
         (if pretrained_encoder_freeze cfg then encoder_freeze else encoder_unfreeze) (model s1)
    /\ (forall k p,
          is_encoder_param k = true ->
          named_parameters (model s2) !! k = Some p ->
          requires_grad p = negb (pretrained_encoder_freeze cfg))
    /\ state_dict (model s2) = state_dict (model s1)
    /\ (forall k,
          is_encoder_param k = false ->
          named_parameters (model s2) !! k = named_parameters (model s1) !! k).
Proof.
  intros Hinit. unfold setup_encoder. rewrite (bind_Ok _ _ _ _ _ Hinit).
  unfold freeze_policy, encoder_freeze, encoder_unfreeze.
  destruct (pretrained_encoder_freeze cfg); eexists;
    (split; [reflexivity|]); step; (split; [reflexivity|]);
    (split; [|split]).
  - intros k p Hk. by apply encoder_set_requires_grad_encoder.
  - apply encoder_set_requires_grad_data.
  - intros k Hk. by apply encoder_set_requires_grad_frame.
  - intros k p Hk. by apply encoder_set_requires_grad_encoder.
  - apply encoder_set_requires_grad_data.
  - intros k Hk. by apply encoder_set_requires_grad_frame.
Qed.

(** Nothing before line 127 calls [trainer.test]. *)
Lemma train_no_test env cfg : no_test (train env cfg).
Proof.
  unfold train, setup_encoder, init_encoder, local_file_state_dict,
    select_model_cls, model_load_state_dict, model_encoder_load_state_dict,
    freeze_policy, fit, Path_is_file, getitem, logging_info.
  solve_no_test.
Qed.

(** C1, as amended: when training has completed, [trainer.test] is called
    if and only if [cfg.model] has a [test_ds] section, its
    [manifest_filepath] is not [None] (an empty string passes) and
    [model.prepare_test] returns true on the trained model; when
    [cfg.model] has no [test_ds], or the section's [manifest_filepath] is
    [None], or [model.prepare_test] returns false, [main] returns normally
    without calling it. *)
Theorem test_phase_gate env cfg (m : Model Tensor) s1 :
  train env cfg (initial_state m) = (Ok tt, s1) ->
  exists r s2,
    main env cfg (initial_state m) = (r, s2)
    /\ (EvTest ∈ trace s2 <-> test_gate env cfg (model s1))
    /\ (test_gate_closed env cfg (model s1) -> r = Ok tt /\ EvTest ∉ trace s2).
Proof.
  intros Htrain.
  assert (Hquiet : EvTest ∉ trace s1).
  { intros Hin. apply (train_no_test env cfg _ _ _ Htrain) in Hin.
    by apply elem_of_nil in Hin. }
  unfold main. rewrite (bind_Ok _ _ _ _ _ Htrain).
  unfold test_gate, test_gate_closed.
  unfold test_phase, hasattr, getattr, prepare_test, test, call, get_model,
    emit, raise, ret, bind.
  destruct (model_test_ds cfg) as [| |[td|]]; step;
    try (eexists _, _; (split; [reflexivity|]); step; by gate_cases).
  destruct (manifest_filepath td) as [| |[p|]] eqn:Hp; step;
    try (eexists _, _; (split; [reflexivity|]); step; by gate_cases).
  destruct (model_prepare_test env (model s1)) eqn:Hready; step;
    [destruct (trainer_test env (model s1)); step|];
    eexists _, _; (split; [reflexivity|]); step; gate_cases.
Qed.

End Claims.

(** ** Further properties of [main] *)

(** Unfolds a run of [main] down to the calls of the collaborators. *)
Ltac run_all :=
  unfold main, train, setup_encoder, freeze_policy, fit, test_phase, prepare_test, test,
    init_encoder, local_file_state_dict,
    select_model_cls, model_load_state_dict, model_encoder_load_state_dict,
    Path_is_file, getitem, call, logging_info, del_pretraind_model,
    assign_pretraind_model, get_model, put_model, emit, raise, bind, ret;
  step.

(** Splits a run of the encoder initialisation into its branches. *)
Ltac branch :=
  match goal with
  | |- context [pretrained_encoder_name ?c] =>
      destruct (pretrained_encoder_name c) eqn:?
  | |- context [is_file ?e ?p] => destruct (is_file e p) eqn:?
  | |- context [endswith ?a ?b] => destruct (endswith a b) eqn:?
  | |- context [torch_load ?e ?n] => destruct (torch_load e n) eqn:?
  | |- context [ASRModel_restore_from ?e ?n] =>
      destruct (ASRModel_restore_from e n) eqn:?
  | |- context [startswith ?n "ssl_"] => destruct (startswith n "ssl_") eqn:?
  | |- context [startswith ?n "stt_"] => destruct (startswith n "stt_") eqn:?
  | |- context [from_pretrained ?e ?c ?n] => destruct (from_pretrained e c n) eqn:?
  | |- context [@lookup _ _ _ _ "state_dict" ?c] =>
      destruct (c !! "state_dict") as [[?|]|] eqn:?
  | |- context [pretrained_encoder_freeze ?c] =>
      destruct (pretrained_encoder_freeze c) eqn:?
  | |- context [trainer_fit ?e ?m] => destruct (trainer_fit e m) as [? []] eqn:?
  end; step.

Ltac branches := step; repeat branch.

Ltac step_in H :=
  cbn -[startswith endswith is_file Path String.append lookup
        load_state_dict encoder_load_state_dict state_dict encoder_state_dict
        encoder_freeze encoder_unfreeze] in H.

Section Extras.

Context {Tensor : Type}.
Implicit Types (env : Env Tensor) (s : State Tensor) (cfg : Cfg) (name : string).

(** X1: [del pretraind_model] (lines 102 and 115) is never reached with
    the variable unbound: encoder initialisation never raises
    [UnboundLocalError], whatever state it starts from. *)
Theorem del_never_unbound env cfg s (var : string) :
  (init_encoder env cfg s).1 <> Raise (UnboundLocalError var).
Proof. run_all. branches; discriminate. Qed.

(** X2: when encoder initialisation returns normally from a state in which
    [pretraind_model] is unbound, it is unbound again afterwards, in every
    branch: no source model stays referenced during training. *)
Theorem init_encoder_unbinds env cfg s :
  pretraind_model s = Unbound ->
  (init_encoder env cfg s).1 = Ok tt ->
  pretraind_model (init_encoder env cfg s).2 = Unbound.
Proof. intros Hs. run_all. branches; done. Qed.

(** X3: every failure of the sourcing itself (an unknown name, a file or a
    name that cannot be loaded, a missing ["state_dict"] key) happens
    before any weights are applied: unless the exception comes out of
    [load_state_dict], the model is the one initialisation started with and
    [load_state_dict] was not called. *)
Theorem init_encoder_fails_before_loading env cfg s (e : Exn) :
  (init_encoder env cfg s).1 = Raise e ->
  e <> TypeError ->
  model (init_encoder env cfg s).2 = model s
  /\ exists evs,
       trace (init_encoder env cfg s).2 = trace s ++ evs
       /\ Forall (fun ev => forall target, ev <> EvLoadStateDict target) evs.
Proof.
  run_all. branches; intros Hraise Hexn; try congruence;
    (split; [done|]); try rewrite <-!app_assoc; eexists; (split; [reflexivity|]);
    repeat first [constructor; [by intros []|] | constructor].
Qed.

(** Membership, and absence, in an explicit list of events. *)
Ltac in_events := apply list_elem_of_In; simpl; tauto.

Ltac not_in_events :=
  let Hin := fresh "Hin" in
  intros Hin; apply list_elem_of_In in Hin; simpl in Hin; intuition discriminate.

(** X4: with a name configured, and whatever the file probe answers,
    encoder initialisation first probes the file system and then logs the
    branch that answer selects (with the suffix, for a local file); every
    load, download or failure comes after that log line. *)
Theorem init_encoder_probe_then_log env cfg name (is_local : bool) s :
  pretrained_encoder_name cfg = Some name ->
  is_file env (Path name) = is_local ->
  exists rest,
    trace (init_encoder env cfg s).2 =
      trace s ++ EvIsFile name :: EvLog (branch_log is_local name) :: rest
    /\ Forall (fun e => is_load_event e = true) rest.
Proof.
  intros Hname <-. unfold branch_log. run_all. rewrite Hname.
  branches; rewrite <-!app_assoc; eexists; (split; [reflexivity|]);
    by repeat constructor.
Qed.

(** X5: a name that is an existing local file is never looked up in the
    registry, even when it starts with ["ssl_"] or ["stt_"]: the file test
    at line 90 comes first. *)
Theorem local_file_never_downloads env cfg name s :
  pretrained_encoder_name cfg = Some name ->
  is_file env (Path name) = true ->
  exists evs,
    trace (init_encoder env cfg s).2 = trace s ++ evs
    /\ Forall (fun e => is_registry_event e = false) evs.
Proof.
  intros Hname Hfile. run_all. rewrite Hname. step. rewrite Hfile.
  branches; try rewrite <-!app_assoc; eexists; (split; [reflexivity|]);
    by repeat constructor.
Qed.

(** X6: a name that is not an existing local file never makes the script
    read a checkpoint, restore an archive or load into the whole model. *)
Theorem symbolic_name_never_reads_file env cfg name s :
  pretrained_encoder_name cfg = Some name ->
  is_file env (Path name) = false ->
  exists evs,
    trace (init_encoder env cfg s).2 = trace s ++ evs
    /\ Forall (fun e => is_local_file_event e = false) evs.
Proof.
  intros Hname Hfile. run_all. rewrite Hname. step. rewrite Hfile.
  branches; try rewrite <-!app_assoc; eexists; (split; [reflexivity|]);
    by repeat constructor.
Qed.

(** X7: for an existing local file the suffix of the name alone selects the
    loader: [ASRModel.restore_from] is called exactly when the name is some
    stem followed by [".nemo"], and [torch.load] exactly when it is not. *)
Theorem suffix_selects_loader env cfg name s :
  pretrained_encoder_name cfg = Some name ->
  is_file env (Path name) = true ->
  exists evs,
    trace (init_encoder env cfg s).2 = trace s ++ evs
    /\ (EvRestoreFrom name ∈ evs <-> exists stem, name = stem +:+ ".nemo")
    /\ (EvTorchLoad name ∈ evs <-> ~ exists stem, name = stem +:+ ".nemo").
Proof.
  intros Hname Hfile. pose proof (endswith_spec name ".nemo") as Hspec.
  run_all. rewrite Hname. step. rewrite Hfile. step.
  destruct (endswith name ".nemo") eqn:Hsuf; step.
  - assert (Hstem : exists stem, name = stem +:+ ".nemo") by by apply Hspec.
    branches; try rewrite <-!app_assoc; eexists; (split; [reflexivity|]);
      (split; [split; [done|intros _; in_events]
              |split; [not_in_events|by intros Hn; destruct Hn]]).
  - assert (Hstem : ~ exists stem, name = stem +:+ ".nemo")
      by (by intros Hn%Hspec).
    branches; try rewrite <-!app_assoc; eexists; (split; [reflexivity|]);
      (split; [split; [not_in_events|done]
              |split; [done|intros _; in_events]]).
Qed.

(** X8: a local file that the loader cannot read ([torch.load] for a
    checkpoint, [ASRModel.restore_from] for an archive) makes encoder
    initialisation raise right after the call; nothing is applied to the
    model and [main] never reaches the trainer. *)
Theorem unreadable_file_propagates env cfg name s :
  pretrained_encoder_name cfg = Some name ->
  is_file env (Path name) = true ->
  (if endswith name ".nemo" then ASRModel_restore_from env name = None
   else torch_load env name = None) ->
  exists msg,
    init_encoder env cfg s =
      (Raise CorruptCheckpoint,
       mkState (model s) (pretraind_model s)
               (trace s ++
                  [EvIsFile name; EvLog msg;
                   if endswith name ".nemo" then EvRestoreFrom name else EvTorchLoad name])).
Proof.
  intros Hname Hfile Hload. run_all. rewrite Hname. step. rewrite Hfile. step.
  destruct (endswith name ".nemo"); step; rewrite Hload; step;
    try rewrite <-!app_assoc; by eexists.
Qed.

(** X9: a symbolic name with a known prefix that the registry cannot
    resolve makes encoder initialisation raise right after
    [from_pretrained], called on the class the prefix selects; the model is
    unchanged. *)
Theorem unresolved_name_propagates env cfg name s :
  pretrained_encoder_name cfg = Some name ->
  is_file env (Path name) = false ->
  (startswith name "ssl_" || startswith name "stt_") = true ->
  from_pretrained env
    (if startswith name "ssl_" then SpeechEncDecSelfSupervisedModel else ASRModel)
    name = None ->
  init_encoder env cfg s =
    (Raise RemoteLookupFailure,
     mkState (model s) (pretraind_model s)
             (trace s ++
                [EvIsFile name;
                 EvLog ("Loading pretrained encoder from NGC: " +:+ name);
                 EvFromPretrained
                   (if startswith name "ssl_" then SpeechEncDecSelfSupervisedModel
                    else ASRModel) name])).
Proof.
  intros Hname Hfile Hprefix Hload. run_all. rewrite Hname. step. rewrite Hfile. step.
  destruct (startswith name "ssl_"); step.
  - rewrite Hload. step. by try rewrite <-!app_assoc.
  - cbn [orb] in Hprefix. rewrite Hprefix. step. rewrite Hload. step.
    by try rewrite <-!app_assoc.
Qed.

(** Up to line 125 nothing calls [model.prepare_test] or [trainer.test]. *)
Lemma train_before_test_phase env cfg s :
  exists evs,
    trace (train env cfg s).2 = trace s ++ evs
    /\ Forall (fun e => e <> EvPrepareTest /\ e <> EvTest) evs.
Proof.
  run_all. branches; try rewrite <-!app_assoc; eexists; (split; [reflexivity|]);
    by repeat constructor.
Qed.

(** X10: encoder setup (lines 88-123) never calls into the trainer:
    whatever the configuration and the collaborators do, it adds no
    [trainer.fit], [model.prepare_test] or [trainer.test] event. *)
Theorem setup_encoder_never_trains env cfg s :
  exists evs,
    trace (setup_encoder env cfg s).2 = trace s ++ evs
    /\ Forall (fun e => is_trainer_event e = false) evs.
Proof.
  run_all. branches; try rewrite <-!app_assoc; eexists; (split; [reflexivity|]);
    by repeat constructor.
Qed.

(** X11: a failure of encoder initialisation aborts [main] on the spot:
    [main] raises the same exception in the same state, so the freeze
    policy is not applied and the trainer is never called. *)
Theorem init_failure_aborts_main env cfg s (e : Exn) s' :
  init_encoder env cfg
    (logging_info ("Hydra config: " +:+ OmegaConf_to_yaml env cfg) s).2 = (Raise e, s') ->
  main env cfg s = (Raise e, s').
Proof.
  intros Hinit. unfold main, train, setup_encoder.
  unfold bind at 1 2 3. unfold logging_info, emit at 1. step.
  unfold logging_info, emit in Hinit. step_in Hinit.
  unfold bind. by rewrite Hinit.
Qed.

(** X12: when [trainer.fit] raises, [main] raises right there, with the
    model as the failing fit left it: neither [model.prepare_test] nor
    [trainer.test] is called, whatever the test configuration. *)
Theorem fit_failure_skips_test env cfg s s2 :
  setup_encoder env cfg
    (logging_info ("Hydra config: " +:+ OmegaConf_to_yaml env cfg) s).2 = (Ok tt, s2) ->
  (trainer_fit env (model s2)).2 = false ->
  main env cfg s =
    (Raise TrainingFailure,
     mkState (trainer_fit env (model s2)).1 (pretraind_model s2) (trace s2 ++ [EvFit])).
Proof.
  intros Hsetup Hfit. unfold main, train.
  unfold bind at 1 2 3. unfold logging_info, emit at 1. step.
  unfold logging_info, emit in Hsetup. step_in Hsetup.
  rewrite Hsetup. unfold fit, get_model, put_model, emit, raise, ret, bind. step.
  by rewrite Hfit.
Qed.

(** X13: [trainer.test] is only ever called after training has completed:
    a run of [main] whose trace holds a test event is a run in which lines
    81-125 returned normally. *)
Theorem test_requires_training env cfg (m : Model Tensor) :
  EvTest ∈ trace (main env cfg (initial_state m)).2 ->
  exists s1, train env cfg (initial_state m) = (Ok tt, s1).
Proof.
  unfold main, bind.
  destruct (train env cfg (initial_state m)) as [[[]|e] s1] eqn:Htrain.
  - by exists s1.
  - step. intros Hin. apply (train_no_test env cfg _ _ _ Htrain) in Hin.
    by apply elem_of_nil in Hin.
Qed.

(** X14: after training, [model.prepare_test] is consulted exactly when
    the configuration has a [test_ds] section whose [manifest_filepath] is
    not [None]: the [and] at line 127 and the nesting of line 128 keep the
    model from being asked otherwise, also when the guard itself raises. *)
Theorem prepare_test_iff_configured env cfg (m : Model Tensor) s1 :
  train env cfg (initial_state m) = (Ok tt, s1) ->
  (EvPrepareTest ∈ trace (main env cfg (initial_state m)).2
   <-> exists test_ds path,
         model_test_ds cfg = Value (Some test_ds)
         /\ manifest_filepath test_ds = Value (Some path)).
Proof.
  intros Htrain.
  assert (Hquiet : EvPrepareTest ∉ trace s1).
  { destruct (train_before_test_phase env cfg (initial_state m)) as (evs & Htr & Hevs).
    rewrite Htrain in Htr. step_in Htr. rewrite Htr.
    intros Hin. rewrite Forall_forall in Hevs. by destruct (Hevs _ Hin). }
  unfold main. rewrite (bind_Ok _ _ _ _ _ Htrain).
  unfold test_phase, hasattr, getattr, prepare_test, test, call, get_model,
    emit, raise, ret, bind.
  destruct (model_test_ds cfg) as [| |[td|]]; step; try by gate_cases.
  destruct (manifest_filepath td) as [| |[p|]] eqn:Hp; step; try by gate_cases.
  split; [intros _; by exists td, p|intros _].
  destruct (model_prepare_test env (model s1)); step;
    [destruct (trainer_test env (model s1)); step|];
    rewrite ?elem_of_app, !list_elem_of_singleton; auto.
Qed.

(** X15: [main] returns normally exactly when lines 81-125 return
    normally, the guard of line 127 can be evaluated ([test_ds] is not
    [None] or '???', and a section has a [manifest_filepath] that is not
    '???') and, if the test gate is open on the trained model,
    [trainer.test] returns too. *)
Theorem main_returns_iff env cfg (m : Model Tensor) :
  (main env cfg (initial_state m)).1 = Ok tt
  <-> exists s1,
        train env cfg (initial_state m) = (Ok tt, s1)
        /\ ~ test_guard_raises cfg
        /\ (test_gate env cfg (model s1) -> trainer_test env (model s1) = true).
Proof.
  unfold main, bind.
  destruct (train env cfg (initial_state m)) as [[[]|e] s1] eqn:Htrain; cycle 1.
  { step. split; [done|]. by intros (?&?&_). }
  unfold test_gate, test_guard_raises.
  unfold test_phase, hasattr, getattr, prepare_test, test, call, get_model,
    emit, raise, ret, bind.
  destruct (model_test_ds cfg) as [| |[td|]]; step.
  - split; [intros _; exists s1|done]. split; [done|]. split; by gate_cases.
  - split; [done|]. intros (? & _ & Hguard & _). destruct Hguard. by left.
  - destruct (manifest_filepath td) as [| |[p|]] eqn:Hp; step.
    + split; [done|]. intros (? & _ & Hguard & _). destruct Hguard.
      right; right. exists td. by eauto.
    + split; [done|]. intros (? & _ & Hguard & _). destruct Hguard.
      right; right. exists td. by eauto.
    + destruct (model_prepare_test env (model s1)) eqn:Hready; step.
      * destruct (trainer_test env (model s1)) eqn:Htest; step.
        -- split; [intros _; exists s1|done]. split; [done|].
           split; [|done]. by gate_cases.
        -- split; [done|]. intros (s1' & [= <-] & _ & Hgate).
           rewrite Hgate in Htest; [done|]. by exists td, p.
      * split; [intros _; exists s1|done]. split; [done|]. split; by gate_cases.
    + split; [intros _; exists s1|done]. split; [done|]. split; by gate_cases.
  - split; [done|]. intros (? & _ & Hguard & _). destruct Hguard. by right; left.
Qed.

(** Non-strict loading and freezing keep the set of parameter names and,
    outside what they are meant to change, the [requires_grad] flags. *)

Lemma load_state_dict_dom (sd : gmap string Tensor) (m : Model Tensor) :
  dom (named_parameters (load_state_dict sd m)) =@{gset string} dom (named_parameters m).
Proof.
  apply set_eq; intros k.
  by rewrite !elem_of_dom, load_state_dict_lookup, fmap_is_Some.
Qed.

Lemma encoder_load_state_dict_dom (sd : gmap string Tensor) (m : Model Tensor) :
  dom (named_parameters (encoder_load_state_dict sd m)) =@{gset string}
  dom (named_parameters m).
Proof.
  apply set_eq; intros k.
  by rewrite !elem_of_dom, encoder_load_state_dict_lookup, fmap_is_Some.
Qed.

Lemma encoder_set_requires_grad_dom (b : bool) (m : Model Tensor) :
  dom (named_parameters (encoder_set_requires_grad b m)) =@{gset string}
  dom (named_parameters m).
Proof.
  apply set_eq; intros k.
  by rewrite !elem_of_dom, encoder_set_requires_grad_lookup, fmap_is_Some.
Qed.

Lemma load_state_dict_flag (sd : gmap string Tensor) (m : Model Tensor) (k : string) :
  requires_grad <$> named_parameters (load_state_dict sd m) !! k =
  requires_grad <$> named_parameters m !! k.
Proof.
  rewrite load_state_dict_lookup.
  destruct (named_parameters m !! k); simpl; [|done]. by destruct (sd !! k).
Qed.

Lemma encoder_load_state_dict_flag (sd : gmap string Tensor) (m : Model Tensor) (k : string) :
  requires_grad <$> named_parameters (encoder_load_state_dict sd m) !! k =
  requires_grad <$> named_parameters m !! k.
Proof.
  rewrite encoder_load_state_dict_lookup.
  destruct (named_parameters m !! k); cbn -[strip_prefix lookup]; [|done].
  destruct (strip_prefix encoder_prefix k) as [k'|]; [|done]. by destruct (sd !! k').
Qed.

Ltac model_facts :=
  unfold encoder_freeze, encoder_unfreeze;
  rewrite ?encoder_set_requires_grad_dom, ?load_state_dict_dom,
    ?encoder_load_state_dict_dom.

(** X16: encoder setup never adds, removes or renames a parameter of the
    model: in every run, failing or not, the parameter names afterwards are
    the parameter names before.  Names of the source that the model does not
    have are dropped, names the source lacks are kept. *)
Theorem setup_encoder_keeps_names env cfg s :
  dom (named_parameters (model (setup_encoder env cfg s).2)) =@{gset string}
  dom (named_parameters (model s)).
Proof. run_all. branches; by model_facts. Qed.

(** X17: unless the configured name is an existing local file, encoder
    setup changes nothing outside the encoder: every parameter whose name
    does not start with ["encoder."] keeps its tensor and its
    [requires_grad] flag, in every run. *)
Theorem non_local_source_keeps_rest env cfg s (k : string) :
  (forall name, pretrained_encoder_name cfg = Some name ->
                is_file env (Path name) = false) ->
  is_encoder_param k = false ->
  named_parameters (model (setup_encoder env cfg s).2) !! k =
  named_parameters (model s) !! k.
Proof.
  intros Hsym Hk. run_all.
  destruct (pretrained_encoder_name cfg) as [name|] eqn:Hname; step.
  - rewrite (Hsym name eq_refl). branches; try done;
      unfold encoder_freeze, encoder_unfreeze;
      by rewrite encoder_set_requires_grad_frame, encoder_load_state_dict_frame.
  - branches; unfold encoder_freeze, encoder_unfreeze;
      by rewrite encoder_set_requires_grad_frame.
Qed.

(** X18: in every branch, local file included, encoder setup leaves the
    [requires_grad] flag of every parameter outside the encoder as it was:
    loading copies tensors only and the freeze policy stops at the encoder. *)
Theorem setup_encoder_keeps_outer_flags env cfg s (k : string) :
  is_encoder_param k = false ->
  requires_grad <$> named_parameters (model (setup_encoder env cfg s).2) !! k =
  requires_grad <$> named_parameters (model s) !! k.
Proof.
  intros Hk. run_all.
  branches; try done; unfold encoder_freeze, encoder_unfreeze;
    rewrite encoder_set_requires_grad_frame by done;
    by rewrite ?load_state_dict_flag, ?encoder_load_state_dict_flag.
Qed.

(** X19: on the encoder, the archive branch and the registry branch agree:
    when [restore_from] on a [".nemo"] file and [from_pretrained] on a
    symbolic name yield the same source model, the two initialisations give
    every encoder parameter the same tensor and flag.  They differ only
    outside the encoder, which the archive branch also overwrites. *)
Theorem archive_and_registry_agree_on_encoder
    env (path name : string) (freeze : bool) (test_ds : Lookup (option TestDsCfg))
    (src : Model Tensor) s (k : string) :
  is_file env (Path path) = true ->
  endswith path ".nemo" = true ->
  ASRModel_restore_from env path = Some src ->
  is_file env (Path name) = false ->
  (startswith name "ssl_" || startswith name "stt_") = true ->
  from_pretrained env
    (if startswith name "ssl_" then SpeechEncDecSelfSupervisedModel else ASRModel)
    name = Some src ->
  is_encoder_param k = true ->
  named_parameters (model (init_encoder env (mkCfg (Some path) freeze test_ds) s).2) !! k =
  named_parameters (model (init_encoder env (mkCfg (Some name) freeze test_ds) s).2) !! k.
Proof.
  intros Hfile Hsuf Hrestore Hsym Hprefix Hfetch Hk.
  apply startswith_strip_prefix in Hk as [k' Hk'].
  apply strip_prefix_Some in Hk' as ->.
  run_all. rewrite Hfile, Hsuf, Hrestore, Hsym. step.
  assert (Hlhs : forall m : Model Tensor,
             named_parameters (load_state_dict (state_dict src) m)
               !! (encoder_prefix +:+ k') =
             named_parameters (encoder_load_state_dict (encoder_state_dict src) m)
               !! (encoder_prefix +:+ k')).
  { intros m. rewrite load_state_dict_lookup, state_dict_lookup.
    rewrite (encoder_load_from_encoder src m k').
    by destruct (named_parameters src !! _). }
  destruct (startswith name "ssl_"); step.
  - rewrite Hfetch. step. apply Hlhs.
  - cbn [orb] in Hprefix. rewrite Hprefix. step. rewrite Hfetch. step. apply Hlhs.
Qed.

End Extras.

(** ** Concrete runs *)

Import Example.

(** A Lightning checkpoint overwrites the decoder as well as the encoder;
    then the encoder is frozen. *)
Example run_raw_checkpoint :
  (main env (cfg_of (Some "last.ckpt")) s0).1 = Ok tt
  /\ final_param (cfg_of (Some "last.ckpt")) "encoder.w" = Some (mkParam 10%Z false)
  /\ final_param (cfg_of (Some "last.ckpt")) "decoder.w" = Some (mkParam 20%Z true).
Proof. by vm_compute. Qed.

(** A model from the registry overwrites the encoder only. *)
Example run_ssl_name :
  (main env (cfg_of (Some "ssl_en_conformer_large")) s0).1 = Ok tt
  /\ final_param (cfg_of (Some "ssl_en_conformer_large")) "encoder.w" = Some (mkParam 10%Z false)
  /\ final_param (cfg_of (Some "ssl_en_conformer_large")) "decoder.w" = Some (mkParam 2%Z true)
  /\ final_param (cfg_of (Some "ssl_en_conformer_large")) "encoder.b" = None.
Proof. by vm_compute. Qed.

(** Without pretrained encoder the tensors stay and the encoder is frozen. *)
Example run_absent :
  (main env (cfg_of None) s0).1 = Ok tt
  /\ final_param (cfg_of None) "encoder.w" = Some (mkParam 1%Z false)
  /\ final_param (cfg_of None) "decoder.w" = Some (mkParam 2%Z true)
  /\ trace (main env (cfg_of None) s0).2 =
       [EvLog "Hydra config: pretrained_encoder: ...";
        EvLog "Not using pretrained encoder.";
        EvLog "Freezing encoder...";
        EvFit].
Proof. by vm_compute. Qed.

(** A directory is not a file: its name is taken for a symbolic name. *)
Example run_directory :
  (main env (cfg_of (Some "data")) s0).1 = Raise (ValueError "Unknown pretrained encoder: data").
Proof. by vm_compute. Qed.

(** The guard of line 127 raises after training when [test_ds] is [None]
    or when the section has no [manifest_filepath]. *)
Example run_test_ds_none :
  (main env (mkCfg None false (Value None)) s0).1
    = Raise (AttributeError "manifest_filepath")
  /\ (main env (mkCfg None false (Value (Some (mkTestDs NoKey)))) s0).1
    = Raise (AttributeError "manifest_filepath")
  /\ (main env (mkCfg None false (Value (Some (mkTestDs (Value None))))) s0).1 = Ok tt
  /\ (main env (mkCfg None false NoKey) s0).1 = Ok tt.
Proof. by vm_compute. Qed.

(** The archive suffix. *)
Example run_suffix :
  endswith "slu.nemo" ".nemo" = true
  /\ endswith "last.ckpt" ".nemo" = false
  /\ endswith "nemo" ".nemo" = false.
Proof. by vm_compute. Qed.

(** ** The theorems at concrete runs *)

(** C2, as amended, on a run without pretrained encoder. *)
Lemma init_encoder_absent_witness :
  pretrained_encoder_name (cfg_of None) = None
  /\ (init_encoder env (cfg_of None) s0 =
        (Ok tt, mkState (model s0) (pretraind_model s0)
                        (trace s0 ++ [EvLog "Not using pretrained encoder."]))
      /\ leaves_model_untouched s0 (init_encoder env (cfg_of None) s0)).
Proof.
  split; [reflexivity|].
  apply (init_encoder_absent env (cfg_of None) s0).
  reflexivity.
Defined.

(** C2, as stated, fails on the empty string: the name is empty, and
    encoder initialisation does not return normally. *)
Lemma empty_name_not_untouched :
  name_empty_or_absent (cfg_of (Some EmptyString))
  /\ ~ leaves_model_untouched s0 (init_encoder env (cfg_of (Some EmptyString)) s0).
Proof.
  split; [by right|].
  intros [Hok _]. discriminate Hok.
Qed.

(** C3 on the name ["conformer_large"], which is no file and has no known prefix. *)
Lemma unknown_encoder_kind_witness :
  is_file env (Path "conformer_large") = false
  /\ startswith "conformer_large" "ssl_" = false
  /\ startswith "conformer_large" "stt_" = false
  /\ exists evs,
      init_encoder env (cfg_of (Some "conformer_large")) s0 =
        (Raise (ValueError ("Unknown pretrained encoder: " +:+ "conformer_large")),
         mkState (model s0) (pretraind_model s0) (trace s0 ++ evs))
      /\ evs = [EvIsFile "conformer_large"; EvLog ("Loading pretrained encoder from NGC: " +:+ "conformer_large")]
      /\ Forall (fun e => is_load_event e = false) evs.
Proof.
  do 3 (split; [reflexivity|]).
  apply (unknown_encoder_kind env (cfg_of (Some "conformer_large")) "conformer_large" s0);
    reflexivity.
Defined.

(** C10 on ["bare.ckpt"], whose dictionary has no ["state_dict"]. *)
Lemma raw_checkpoint_missing_key_witness :
  is_file env (Path "bare.ckpt") = true
  /\ endswith "bare.ckpt" ".nemo" = false
  /\ torch_load env "bare.ckpt" = Some bare_checkpoint
  /\ bare_checkpoint !! "state_dict" = None
  /\ exists evs,
      init_encoder env (cfg_of (Some "bare.ckpt")) s0 =
        (Raise (KeyError "state_dict"),
         mkState (model s0) (pretraind_model s0) (trace s0 ++ evs))
      /\ evs = [EvIsFile "bare.ckpt";
                EvLog ("Loading encoder from PyTorch Lightning checkpoint: " +:+ "bare.ckpt");
                EvTorchLoad "bare.ckpt"]
      /\ Forall (fun e => is_load_event e = false \/ e = EvTorchLoad "bare.ckpt") evs.
Proof.
  do 4 (split; [reflexivity|]).
  apply (raw_checkpoint_missing_key env (cfg_of (Some "bare.ckpt")) "bare.ckpt"
           bare_checkpoint s0); reflexivity.
Defined.

(** C4 on the Lightning checkpoint ["last.ckpt"]. *)
Lemma raw_checkpoint_whole_model_witness :
  is_file env (Path "last.ckpt") = true
  /\ endswith "last.ckpt" ".nemo" = false
  /\ torch_load env "last.ckpt" = Some checkpoint
  /\ checkpoint !! "state_dict" = Some (PyStateDict weights)
  /\ exists s',
      init_encoder env (cfg_of (Some "last.ckpt")) s0 = (Ok tt, s')
      /\ trace s' = trace s0 ++
           [EvIsFile "last.ckpt";
            EvLog ("Loading encoder from PyTorch Lightning checkpoint: " +:+ "last.ckpt");
            EvTorchLoad "last.ckpt";
            EvLoadStateDict WholeModel]
      /\ model s' = load_state_dict weights (model s0)
      /\ pretraind_model s' = Unbound
      /\ forall k,
           named_parameters (model s') !! k =
           (fun p => match weights !! k with Some t => set_data p t | None => p end)
             <$> named_parameters (model s0) !! k.
Proof.
  do 4 (split; [reflexivity|]).
  apply (raw_checkpoint_whole_model env (cfg_of (Some "last.ckpt")) "last.ckpt"
           checkpoint weights s0); reflexivity.
Defined.

(** C5 on the archive ["slu.nemo"]. *)
Lemma nemo_archive_whole_model_witness :
  is_file env (Path "slu.nemo") = true
  /\ endswith "slu.nemo" ".nemo" = true
  /\ ASRModel_restore_from env "slu.nemo" = Some source
  /\ exists s',
      init_encoder env (cfg_of (Some "slu.nemo")) s0 = (Ok tt, s')
      /\ trace s' = trace s0 ++
           [EvIsFile "slu.nemo";
            EvLog ("Loading pretrained encoder from NeMo file: " +:+ "slu.nemo");
            EvRestoreFrom "slu.nemo";
            EvLoadStateDict WholeModel]
      /\ model s' = load_state_dict (state_dict source) (model s0)
      /\ pretraind_model s' = Unbound
      /\ forall k,
           named_parameters (model s') !! k =
           (fun p => match named_parameters source !! k with
                     | Some q => set_data p (data q)
                     | None => p
                     end) <$> named_parameters (model s0) !! k.
Proof.
  do 3 (split; [reflexivity|]).
  apply (nemo_archive_whole_model env (cfg_of (Some "slu.nemo")) "slu.nemo" source s0);
    reflexivity.
Defined.

(** C6 on the name ["ssl_en_conformer_large"]. *)
Lemma ssl_name_encoder_only_witness :
  is_file env (Path "ssl_en_conformer_large") = false
  /\ startswith "ssl_en_conformer_large" "ssl_" = true
  /\ from_pretrained env SpeechEncDecSelfSupervisedModel "ssl_en_conformer_large" = Some source
  /\ exists s',
      init_encoder env (cfg_of (Some "ssl_en_conformer_large")) s0 = (Ok tt, s')
      /\ trace s' = trace s0 ++
           [EvIsFile "ssl_en_conformer_large";
            EvLog ("Loading pretrained encoder from NGC: " +:+ "ssl_en_conformer_large");
            EvFromPretrained SpeechEncDecSelfSupervisedModel "ssl_en_conformer_large";
            EvLoadStateDict EncoderOnly]
      /\ model s' = encoder_load_state_dict (encoder_state_dict source) (model s0)
      /\ pretraind_model s' = Unbound
      /\ (forall k, is_encoder_param k = false ->
           named_parameters (model s') !! k = named_parameters (model s0) !! k)
      /\ (forall k,
           named_parameters (model s') !! (encoder_prefix +:+ k) =
           (fun p => match named_parameters source !! (encoder_prefix +:+ k) with
                     | Some q => set_data p (data q)
                     | None => p
                     end) <$> named_parameters (model s0) !! (encoder_prefix +:+ k)).
Proof.
  do 3 (split; [reflexivity|]).
  apply (ssl_name_encoder_only env (cfg_of (Some "ssl_en_conformer_large"))
           "ssl_en_conformer_large" source s0); reflexivity.
Defined.

(** C7 on the name ["stt_en_conformer_ctc_large"]. *)
Lemma stt_name_encoder_only_witness :
  is_file env (Path "stt_en_conformer_ctc_large") = false
  /\ startswith "stt_en_conformer_ctc_large" "stt_" = true
  /\ from_pretrained env ASRModel "stt_en_conformer_ctc_large" = Some source
  /\ exists s',
      init_encoder env (cfg_of (Some "stt_en_conformer_ctc_large")) s0 = (Ok tt, s')
      /\ trace s' = trace s0 ++
           [EvIsFile "stt_en_conformer_ctc_large";
            EvLog ("Loading pretrained encoder from NGC: " +:+ "stt_en_conformer_ctc_large");
            EvFromPretrained ASRModel "stt_en_conformer_ctc_large";
            EvLoadStateDict EncoderOnly]
      /\ model s' = encoder_load_state_dict (encoder_state_dict source) (model s0)
      /\ pretraind_model s' = Unbound
      /\ (forall k, is_encoder_param k = false ->
           named_parameters (model s') !! k = named_parameters (model s0) !! k)
      /\ (forall k,
           named_parameters (model s') !! (encoder_prefix +:+ k) =
           (fun p => match named_parameters source !! (encoder_prefix +:+ k) with
                     | Some q => set_data p (data q)
                     | None => p
                     end) <$> named_parameters (model s0) !! (encoder_prefix +:+ k)).
Proof.
  do 3 (split; [reflexivity|]).
  apply (stt_name_encoder_only env (cfg_of (Some "stt_en_conformer_ctc_large"))
           "stt_en_conformer_ctc_large" source s0); reflexivity.
Defined.

(** C8 on a run that loads the archive ["slu.nemo"] and freezes the encoder. *)
Lemma freeze_policy_applied_witness :
  init_encoder env cfg_nemo s0 = (Ok tt, s_loaded)
  /\ exists s2,
      setup_encoder env cfg_nemo s0 = (Ok tt, s2)
      /\ model s2 =
           (if pretrained_encoder_freeze cfg_nemo then encoder_freeze else encoder_unfreeze)
             (model s_loaded)
      /\ (forall k p,
            is_encoder_param k = true ->
            named_parameters (model s2) !! k = Some p ->
            requires_grad p = negb (pretrained_encoder_freeze cfg_nemo))
      /\ state_dict (model s2) = state_dict (model s_loaded)
      /\ (forall k,
            is_encoder_param k = false ->
            named_parameters (model s2) !! k = named_parameters (model s_loaded) !! k).
Proof.
  split; [reflexivity|].
  apply (freeze_policy_applied env cfg_nemo s0 s_loaded).
  reflexivity.
Defined.

(** C1, as amended, on a run with a test manifest and a model ready for testing. *)
Lemma test_phase_gate_witness :
  train env cfg_test (initial_state target) = (Ok tt, s_trained)
  /\ exists r s2,
      main env cfg_test (initial_state target) = (r, s2)
      /\ (EvTest ∈ trace s2 <-> test_gate env cfg_test (model s_trained))
      /\ (test_gate_closed env cfg_test (model s_trained) -> r = Ok tt /\ EvTest ∉ trace s2).
Proof.
  split; [reflexivity|].
  apply (test_phase_gate env cfg_test target s_trained).
  reflexivity.
Defined.

(** C1, as stated, fails on an empty manifest path: training completes and
    [trainer.test] is called although the manifest path is the empty string. *)
Lemma empty_manifest_runs_test :
  train env cfg_empty_manifest s0 = (Ok tt, s_trained_empty_manifest)
  /\ ~ (EvTest ∈ trace (main env cfg_empty_manifest s0).2
        <-> test_gate_nonempty env cfg_empty_manifest (model s_trained_empty_manifest)).
Proof.
  split; [reflexivity|].
  intros [Hrun _].
  destruct Hrun as (td & path & [= <-] & [= <-] & Hne & _); [|done].
  apply list_elem_of_In. vm_compute. tauto.
Qed.

(** ** The further properties at concrete runs *)

(** X2 on the registry name ["ssl_en_conformer_large"]. *)
Lemma init_encoder_unbinds_witness :
  pretraind_model s0 = Unbound
  /\ (init_encoder env (cfg_of (Some "ssl_en_conformer_large")) s0).1 = Ok tt
  /\ pretraind_model (init_encoder env (cfg_of (Some "ssl_en_conformer_large")) s0).2
     = Unbound.
Proof.
  do 2 (split; [reflexivity|]).
  apply (init_encoder_unbinds env (cfg_of (Some "ssl_en_conformer_large")) s0);
    reflexivity.
Defined.

(** X3 on ["bare.ckpt"], which fails with a [KeyError]. *)
Lemma init_encoder_fails_before_loading_witness :
  (init_encoder env (cfg_of (Some "bare.ckpt")) s0).1 = Raise (KeyError "state_dict")
  /\ (model (init_encoder env (cfg_of (Some "bare.ckpt")) s0).2 = model s0
      /\ exists evs,
           trace (init_encoder env (cfg_of (Some "bare.ckpt")) s0).2 = trace s0 ++ evs
           /\ Forall (fun ev => forall target, ev <> EvLoadStateDict target) evs).
Proof.
  split; [reflexivity|].
  apply (init_encoder_fails_before_loading env (cfg_of (Some "bare.ckpt")) s0
           (KeyError "state_dict")); [reflexivity|discriminate].
Defined.

(** X4 on the checkpoint ["last.ckpt"], which the probe finds. *)
Lemma init_encoder_probe_then_log_witness :
  is_file env (Path "last.ckpt") = true
  /\ exists rest,
       trace (init_encoder env (cfg_of (Some "last.ckpt")) s0).2 =
         trace s0 ++ EvIsFile "last.ckpt" :: EvLog (branch_log true "last.ckpt") :: rest
       /\ Forall (fun e => is_load_event e = true) rest.
Proof.
  split; [reflexivity|].
  apply (init_encoder_probe_then_log env (cfg_of (Some "last.ckpt")) "last.ckpt" true s0);
    reflexivity.
Defined.

(** X5 on the local file ["ssl_local.ckpt"], whose name has a registry prefix. *)
Lemma local_file_never_downloads_witness :
  is_file Faulty.env (Path "ssl_local.ckpt") = true
  /\ startswith "ssl_local.ckpt" "ssl_" = true
  /\ exists evs,
       trace (init_encoder Faulty.env (Faulty.cfg_of "ssl_local.ckpt") s0).2 = trace s0 ++ evs
       /\ Forall (fun e => is_registry_event e = false) evs.
Proof.
  do 2 (split; [reflexivity|]).
  apply (local_file_never_downloads Faulty.env (Faulty.cfg_of "ssl_local.ckpt")
           "ssl_local.ckpt" s0); reflexivity.
Defined.

(** X6 on the registry name ["stt_en_conformer_ctc_large"]. *)
Lemma symbolic_name_never_reads_file_witness :
  is_file env (Path "stt_en_conformer_ctc_large") = false
  /\ exists evs,
       trace (init_encoder env (cfg_of (Some "stt_en_conformer_ctc_large")) s0).2
         = trace s0 ++ evs
       /\ Forall (fun e => is_local_file_event e = false) evs.
Proof.
  split; [reflexivity|].
  apply (symbolic_name_never_reads_file env (cfg_of (Some "stt_en_conformer_ctc_large"))
           "stt_en_conformer_ctc_large" s0); reflexivity.
Defined.

(** X7 on the archive ["slu.nemo"]. *)
Lemma suffix_selects_loader_witness :
  is_file env (Path "slu.nemo") = true
  /\ exists evs,
       trace (init_encoder env cfg_nemo s0).2 = trace s0 ++ evs
       /\ (EvRestoreFrom "slu.nemo" ∈ evs <-> exists stem, "slu.nemo" = stem +:+ ".nemo")
       /\ (EvTorchLoad "slu.nemo" ∈ evs <-> ~ exists stem, "slu.nemo" = stem +:+ ".nemo").
Proof.
  split; [reflexivity|].
  apply (suffix_selects_loader env cfg_nemo "slu.nemo" s0); reflexivity.
Defined.

(** X8 on the unreadable archive ["corrupt.nemo"]. *)
Lemma unreadable_file_propagates_witness :
  is_file Faulty.env (Path "corrupt.nemo") = true
  /\ ASRModel_restore_from Faulty.env "corrupt.nemo" = None
  /\ exists msg,
       init_encoder Faulty.env (Faulty.cfg_of "corrupt.nemo") s0 =
         (Raise CorruptCheckpoint,
          mkState (model s0) (pretraind_model s0)
                  (trace s0 ++
                     [EvIsFile "corrupt.nemo"; EvLog msg;
                      if endswith "corrupt.nemo" ".nemo" then EvRestoreFrom "corrupt.nemo"
                      else EvTorchLoad "corrupt.nemo"])).
Proof.
  do 2 (split; [reflexivity|]).
  apply (unreadable_file_propagates Faulty.env (Faulty.cfg_of "corrupt.nemo")
           "corrupt.nemo" s0); reflexivity.
Defined.

(** X9 on the name ["stt_missing"], which the registry does not know. *)
Lemma unresolved_name_propagates_witness :
  is_file Faulty.env (Path "stt_missing") = false
  /\ from_pretrained Faulty.env ASRModel "stt_missing" = None
  /\ init_encoder Faulty.env (Faulty.cfg_of "stt_missing") s0 =
       (Raise RemoteLookupFailure,
        mkState (model s0) (pretraind_model s0)
                (trace s0 ++
                   [EvIsFile "stt_missing";
                    EvLog ("Loading pretrained encoder from NGC: " +:+ "stt_missing");
                    EvFromPretrained
                      (if startswith "stt_missing" "ssl_"
                       then SpeechEncDecSelfSupervisedModel else ASRModel)
                      "stt_missing"])).
Proof.
  do 2 (split; [reflexivity|]).
  apply (unresolved_name_propagates Faulty.env (Faulty.cfg_of "stt_missing")
           "stt_missing" s0); reflexivity.
Defined.

(** X11 on the name ["stt_missing"]: [main] stops where initialisation failed. *)
Lemma init_failure_aborts_main_witness :
  main Faulty.env (Faulty.cfg_of "stt_missing") s0 =
    (Raise RemoteLookupFailure, (main Faulty.env (Faulty.cfg_of "stt_missing") s0).2).
Proof.
  apply (init_failure_aborts_main Faulty.env (Faulty.cfg_of "stt_missing") s0
           RemoteLookupFailure).
  reflexivity.
Defined.

(** X12 on a run whose [trainer.fit] changes the decoder and then raises,
    although a test set is configured. *)
Lemma fit_failure_skips_test_witness :
  (trainer_fit Faulty.env target).2 = false
  /\ main Faulty.env Faulty.cfg_plain s0 =
       (Raise TrainingFailure,
        mkState (trainer_fit Faulty.env target).1 Unbound
                ([EvLog "Hydra config: pretrained_encoder: ...";
                  EvLog "Not using pretrained encoder."] ++ [EvFit]))
  /\ named_parameters (model (main Faulty.env Faulty.cfg_plain s0).2) !! "decoder.w"
     = Some (mkParam 7%Z true).
Proof.
  split; [reflexivity|]. split; [|reflexivity].
  apply (fit_failure_skips_test Faulty.env Faulty.cfg_plain s0
           (mkState target Unbound
                    [EvLog "Hydra config: pretrained_encoder: ...";
                     EvLog "Not using pretrained encoder."]));
    reflexivity.
Defined.

(** X13 on a run that reaches the test phase. *)
Lemma test_requires_training_witness :
  EvTest ∈ trace (main env cfg_test (initial_state target)).2
  /\ exists s1, train env cfg_test (initial_state target) = (Ok tt, s1).
Proof.
  assert (Hin : EvTest ∈ trace (main env cfg_test (initial_state target)).2)
    by (apply list_elem_of_In; vm_compute; tauto).
  split; [exact Hin|].
  apply (test_requires_training env cfg_test target Hin).
Defined.

(** X14 on a run with a test manifest. *)
Lemma prepare_test_iff_configured_witness :
  EvPrepareTest ∈ trace (main env cfg_test (initial_state target)).2
  <-> exists test_ds path,
        model_test_ds cfg_test = Value (Some test_ds)
        /\ manifest_filepath test_ds = Value (Some path).
Proof.
  apply (prepare_test_iff_configured env cfg_test target s_trained).
  reflexivity.
Defined.

(** X17 on a registry name and the decoder parameter. *)
Lemma non_local_source_keeps_rest_witness :
  is_encoder_param "decoder.w" = false
  /\ named_parameters
       (model (setup_encoder env (cfg_of (Some "ssl_en_conformer_large")) s0).2)
       !! "decoder.w"
     = named_parameters (model s0) !! "decoder.w".
Proof.
  split; [reflexivity|].
  apply (non_local_source_keeps_rest env (cfg_of (Some "ssl_en_conformer_large")) s0
           "decoder.w"); [|reflexivity].
  intros name Hname. injection Hname as <-. reflexivity.
Defined.

(** X18 on the archive branch and the decoder parameter. *)
Lemma setup_encoder_keeps_outer_flags_witness :
  is_encoder_param "decoder.w" = false
  /\ requires_grad <$> named_parameters (model (setup_encoder env cfg_nemo s0).2)
                         !! "decoder.w"
     = requires_grad <$> named_parameters (model s0) !! "decoder.w".
Proof.
  split; [reflexivity|].
  apply (setup_encoder_keeps_outer_flags env cfg_nemo s0 "decoder.w").
  reflexivity.
Defined.

(** X19 on the archive ["slu.nemo"] and the registry name
    ["ssl_en_conformer_large"], which hold the same model. *)
Lemma archive_and_registry_agree_on_encoder_witness :
  ASRModel_restore_from env "slu.nemo" = Some source
  /\ from_pretrained env SpeechEncDecSelfSupervisedModel "ssl_en_conformer_large"
     = Some source
  /\ named_parameters
       (model (init_encoder env (mkCfg (Some "slu.nemo") true NoKey) s0).2)
       !! "encoder.w"
     = named_parameters
         (model (init_encoder env (mkCfg (Some "ssl_en_conformer_large") true NoKey) s0).2)
         !! "encoder.w".
Proof.
  do 2 (split; [reflexivity|]).
  apply (archive_and_registry_agree_on_encoder env "slu.nemo" "ssl_en_conformer_large"
           true NoKey source s0 "encoder.w"); reflexivity.
Defined.
